(** * FIRe-GAN generators ([Models/fire_gan.py]): layer stacks, graph wiring
      and shape arithmetic.

    The Python module builds two Keras models.  Its functions are embedded
    here as functions in an exception monad over a small model of the Keras
    objects they create: layer configurations, [Sequential] containers and
    the symbolic tensors of the functional API, each tensor carrying the
    shape Keras infers for it. *)

From Stdlib Require Import ZArith List Lia.
From Stdlib Require QArith_base.
From stdpp Require Import base strings gmap list.

Local Open Scope Z_scope.

(** ** Python: exceptions and global names *)

Module Python.

(** Exceptions a call of the module's functions can end in.  [NameError]
    is raised by the interpreter when the module's own code mentions a
    global name that nothing has bound.  [ValueError] is what Keras
    raises when a layer constructor gets an argument it refuses or when
    the shapes of adjacent layers do not fit; [OverflowError] is what
    TensorFlow raises when a size leaves its 64-bit integers. *)
Inductive value_error : Type :=
| InvalidArgument
| BadRank
| NegativeDimension
| NoInputChannels
| InputShapeMismatch
| ConcatMismatch
| InputAfterLayers.

Inductive exn : Type :=
| NameError (name : string)
| ValueError (why : value_error)
| OverflowError.

Inductive result (A : Type) : Type :=
| Ok (a : A)
| Raise (e : exn).
Arguments Ok {A} a.
Arguments Raise {A} e.

#[global] Instance result_ret : MRet result := fun A a => Ok a.
#[global] Instance result_bind : MBind result := fun A B f m =>
  match m with
  | Ok a => f a
  | Raise e => Raise e
  end.

(** Where an exception comes from: the repository's code, or the
    framework's argument checks and shape inference. *)
Inductive origin : Type := Repository | Framework.

Definition exn_origin (e : exn) : origin :=
  match e with
  | NameError _ => Repository
  | ValueError _ => Framework
  | OverflowError => Framework
  end.

Definition succeeds {A} (r : result A) : bool :=
  match r with Ok _ => true | Raise _ => false end.

(** A [for] loop threading an accumulator, stopping at the first
    exception. *)
Fixpoint foldlM {A B} (f : A -> B -> result A) (a : A) (l : list B)
  : result A :=
  match l with
  | [] => Ok a
  | b :: l' => a' ← f a b; foldlM f a' l'
  end.

(** The builtins the module uses. *)
Definition builtins : gset string := {[ "reversed"; "zip" ]}.

(** [LOAD_GLOBAL]: a name is looked up in the module's globals, then in
    the builtins. *)
Definition load_global (G : gset string) (name : string) : result unit :=
  if bool_decide (name ∈ G ∪ builtins) then Ok tt else Raise (NameError name).
Arguments load_global : simpl never.

End Python.
Import Python.

(** ** Keras: layers, containers, symbolic tensors *)

Module Keras.

(** Float literals of the source ([0.02], [0.5], [0.2]) are kept as the
    rationals they denote. *)
Definition float : Type := QArith_base.Q.
Definition decimal (digits : Z) (scale : positive) : float :=
  QArith_base.Qmake digits scale.

Inductive padding_mode : Type := same | valid.
Inductive activation_fn : Type := tanh.
Inductive initializer : Type :=
| random_normal_initializer (mean stddev : float)
| he_uniform.

(** An int or a pair, as [kernel_size] and [strides] accept. *)
Inductive int_or_pair : Type :=
| Int (n : Z)
| Pair (a b : Z).

(** [conv_utils.normalize_tuple] for rank 2. *)
Definition normalize_tuple (v : int_or_pair) : Z * Z :=
  match v with
  | Int n => (n, n)
  | Pair a b => (a, b)
  end.

Record conv_config : Type := {
  filters : Z;
  kernel_size : Z * Z;
  strides : Z * Z;
  padding : padding_mode;
  kernel_initializer : initializer;
  use_bias : bool;
  activation : option activation_fn
}.

Inductive layer : Type :=
| Conv2D (c : conv_config)
| Conv2DTranspose (c : conv_config)
| BatchNormalization
| LeakyReLU (alpha : option float)
| ReLU
| Dropout (rate : float)
| SpectralNormalization (l : layer).

(** The layer objects: [Conv2D_layer f k s p init bias act] is the
    object a successful call [Conv2D(f, k, strides=s, padding=p, ...)]
    returns, with [kernel_size] and [strides] normalized to pairs. *)
Definition Conv2D_layer (f : Z) (k s : int_or_pair) (p : padding_mode)
    (init : initializer) (bias : bool) (act : option activation_fn) : layer :=
  Conv2D {| filters := f; kernel_size := normalize_tuple k;
            strides := normalize_tuple s; padding := p;
            kernel_initializer := init; use_bias := bias;
            activation := act |}.

Definition Conv2DTranspose_layer (f : Z) (k s : int_or_pair) (p : padding_mode)
    (init : initializer) (bias : bool) (act : option activation_fn) : layer :=
  Conv2DTranspose {| filters := f; kernel_size := normalize_tuple k;
                     strides := normalize_tuple s; padding := p;
                     kernel_initializer := init; use_bias := bias;
                     activation := act |}.

(** What the constructors check: [filters], both kernel sizes and both
    strides must be positive. *)
Definition positive_pair (v : int_or_pair) : bool :=
  (0 <? fst (normalize_tuple v)) && (0 <? snd (normalize_tuple v)).

Definition conv_arguments_ok (f : Z) (k s : int_or_pair) : bool :=
  (0 <? f) && positive_pair k && positive_pair s.

(** The constructor calls, with the keyword arguments the source passes;
    they raise [ValueError] on an argument they refuse.  [use_bias]
    defaults to [True] and [activation] to [None] in Keras; call sites
    that omit them pass these defaults. *)
Definition mkConv2D (f : Z) (k s : int_or_pair) (p : padding_mode)
    (init : initializer) (bias : bool) (act : option activation_fn)
  : result layer :=
  if conv_arguments_ok f k s then Ok (Conv2D_layer f k s p init bias act)
  else Raise (ValueError InvalidArgument).

Definition mkConv2DTranspose (f : Z) (k s : int_or_pair) (p : padding_mode)
    (init : initializer) (bias : bool) (act : option activation_fn)
  : result layer :=
  if conv_arguments_ok f k s
  then Ok (Conv2DTranspose_layer f k s p init bias act)
  else Raise (ValueError InvalidArgument).

(** *** Shape inference

    Shapes exclude the batch dimension: [[height; width; channels]].
    The two length functions are Keras's [conv_utils.conv_output_length]
    and [conv_utils.deconv_output_length] (dilation 1, no output
    padding); [/] on [Z] is Python's floor division. *)
Definition conv_output_length (input_length filter_size : Z)
    (p : padding_mode) (stride : Z) : Z :=
  let output_length :=
    match p with
    | same => input_length
    | valid => input_length - filter_size + 1
    end in
  (output_length + stride - 1) / stride.

Definition deconv_output_length (input_length filter_size : Z)
    (p : padding_mode) (stride : Z) : Z :=
  match p with
  | valid => input_length * stride + Z.max (filter_size - stride) 0
  | same => input_length * stride
  end.

(** A size TensorFlow can hold: not negative (zero is a size like any
    other), and within a signed 64-bit integer. *)
Definition max_int64 : Z := 2 ^ 63 - 1.

(** The sizes a signed 32-bit integer holds. *)
Definition max_int32 : Z := 2 ^ 31 - 1.

Definition checked_dim (n : Z) : result Z :=
  if n <? 0 then Raise (ValueError NegativeDimension)
  else if max_int64 <? n then Raise OverflowError
  else Ok n.

Definition checked_shape (h w c : Z) : result (list Z) :=
  h ← checked_dim h; w ← checked_dim w; Ok [h; w; c].

(** A convolution needs input channels to convolve over. *)
Definition checked_channels (c : Z) : result unit :=
  if 0 <? c then Ok tt else Raise (ValueError NoInputChannels).

(** [Conv2D] works on the last three axes of its input and keeps any
    axes before them. *)
Fixpoint conv2d_output_shape (c : conv_config) (s : list Z)
  : result (list Z) :=
  match s with
  | [h; w; cin] =>
      _ ← checked_channels cin;
      checked_shape
        (conv_output_length h (fst (kernel_size c)) (padding c) (fst (strides c)))
        (conv_output_length w (snd (kernel_size c)) (padding c) (snd (strides c)))
        (filters c)
  | b :: ((_ :: _ :: _ :: _) as s') =>
      r ← conv2d_output_shape c s'; Ok (b :: r)
  | _ => Raise (ValueError BadRank)
  end.

(** [Conv2DTranspose] takes height, width and channels, nothing more. *)
Definition conv2d_transpose_output_shape (c : conv_config) (s : list Z)
  : result (list Z) :=
  match s with
  | [h; w; cin] =>
      _ ← checked_channels cin;
      checked_shape
        (deconv_output_length h (fst (kernel_size c)) (padding c) (fst (strides c)))
        (deconv_output_length w (snd (kernel_size c)) (padding c) (snd (strides c)))
        (filters c)
  | _ => Raise (ValueError BadRank)
  end.

(** The shape a layer gives when it is built on an input of shape [s].
    (No function of the module calls a layer a second time, so a layer
    meets only the channel count it is built for.) *)
Fixpoint compute_output_shape (l : layer) (s : list Z) : result (list Z) :=
  match l with
  | Conv2D c => conv2d_output_shape c s
  | Conv2DTranspose c => conv2d_transpose_output_shape c s
  | BatchNormalization | LeakyReLU _ | ReLU | Dropout _ => Ok s
  | SpectralNormalization l' => compute_output_shape l' s
  end.

(** *** [Sequential] *)
Record sequential : Type := {
  seq_input : option (list Z);
  seq_layers : list layer
}.

(** [keras.Sequential()] *)
Definition Sequential : sequential :=
  {| seq_input := None; seq_layers := [] |}.

Definition layers_output_shape (ls : list layer) (s : list Z)
  : result (list Z) :=
  foldlM (fun s l => compute_output_shape l s) s ls.

(** What [add] receives: the tensor of [keras.Input(shape=...)], or a
    layer. *)
Inductive addable : Type :=
| KInput (shape : list Z)
| KLayer (l : layer).

(** [model.add(x)], as state passing.  A model that knows its input shape
    builds each layer as it is added, which is where Keras raises on a
    shape mismatch; a model without one defers that to its first call. *)
Definition add (m : sequential) (x : addable) : result sequential :=
  match x with
  | KInput s =>
      match seq_layers m with
      | [] => Ok {| seq_input := Some s; seq_layers := [] |}
      | _ :: _ => Raise (ValueError InputAfterLayers)
      end
  | KLayer l =>
      match seq_input m with
      | None => Ok {| seq_input := None; seq_layers := seq_layers m ++ [l] |}
      | Some s =>
          s' ← layers_output_shape (seq_layers m) s;
          _ ← compute_output_shape l s';
          Ok {| seq_input := Some s; seq_layers := seq_layers m ++ [l] |}
      end
  end.

(** *** Symbolic tensors of the functional API

    A tensor records the node that produced it and its inferred shape. *)
Inductive callee : Type :=
| CallSequential (m : sequential)
| CallLayer (l : layer).

Inductive tensor : Type :=
| Input (shape : list Z)
| Apply (f : callee) (x : tensor) (shape : list Z)
| Concat (x skip : tensor) (shape : list Z).

Definition tshape (t : tensor) : list Z :=
  match t with
  | Input s | Apply _ _ s | Concat _ _ s => s
  end.

(** A model with a declared input takes tensors of the same rank and
    channel count; their other sizes may differ from the declared ones. *)
Definition compatible_input (declared actual : list Z) : bool :=
  (length declared =? length actual)%nat
  && bool_decide (last declared = last actual).

(** [f(x)] *)
Definition call (f : callee) (x : tensor) : result tensor :=
  match f with
  | CallSequential m =>
      _ ← match seq_input m with
          | Some s => if compatible_input s (tshape x) then Ok tt
                      else Raise (ValueError InputShapeMismatch)
          | None => Ok tt
          end;
      s' ← layers_output_shape (seq_layers m) (tshape x);
      Ok (Apply f x s')
  | CallLayer l =>
      s' ← compute_output_shape l (tshape x);
      Ok (Apply f x s')
  end.

(** [tf.keras.layers.Concatenate()([x, skip])]: along the last axis; all
    other axes must agree. *)
Definition concatenate (x skip : tensor) : result tensor :=
  match tshape x, tshape skip with
  | [h; w; c], [h'; w'; c'] =>
      if (h =? h') && (w =? w') then Ok (Concat x skip [h; w; c + c'])
      else Raise (ValueError ConcatMismatch)
  | _, _ => Raise (ValueError BadRank)
  end.

(** [tf.keras.Model(inputs=..., outputs=...)] *)
Record model : Type := { inputs : tensor; outputs : tensor }.

End Keras.
Import Keras.

(** ** The module [fire_gan] *)

Module FireGan.

(** Names bound when the module has been executed: its three [import]
    statements (lines 12-14), its metadata assignments and its four
    [def]s.  (Attributes the interpreter sets, such as [__name__], are
    left out; the functions mention none of them.) *)
Definition imports : list string :=
  [ "tf"; "keras";
    "Conv2D"; "BatchNormalization"; "Conv2DTranspose"; "LeakyReLU" ].

Definition module_globals : gset string :=
  list_to_set
    (imports ++
     [ "__author__"; "__credits__"; "__license__"; "__version__";
       "__status__";
       "downsample"; "upsample"; "create_g1_firegan_unet";
       "create_g2_firegan" ]).

Section Functions.

(** The functions are read against a namespace [G] of bound global
    names; a bound name denotes the framework object it is named
    after. *)
Variable G : gset string.

(** [downsample(filters, size, apply_batchnorm=True)] *)
Definition downsample (filters size : Z) (apply_batchnorm : bool)
  : result sequential :=
  _ ← load_global G "tf";
  let initializer := random_normal_initializer (decimal 0 1) (decimal 2 100) in
  _ ← load_global G "tf";
  let result := Sequential in
  _ ← load_global G "tf";
  conv ← mkConv2D filters (Int size) (Int 2) same initializer false None;
  result ← add result (KLayer conv);
  result ← (if apply_batchnorm then
              _ ← load_global G "tf";
              add result (KLayer BatchNormalization)
            else Ok result);
  _ ← load_global G "tf";
  result ← add result (KLayer (LeakyReLU None));
  Ok result.

(** [upsample(filters, size, apply_dropout=False)] *)
Definition upsample (filters size : Z) (apply_dropout : bool)
  : result sequential :=
  _ ← load_global G "tf";
  let initializer := random_normal_initializer (decimal 0 1) (decimal 2 100) in
  _ ← load_global G "tf";
  let result := Sequential in
  _ ← load_global G "tf";
  conv ← mkConv2DTranspose filters (Int size) (Int 2) same initializer false None;
  result ← add result (KLayer conv);
  _ ← load_global G "tf";
  result ← add result (KLayer BatchNormalization);
  result ← (if apply_dropout then
              _ ← load_global G "tf";
              add result (KLayer (Dropout (decimal 5 10)))
            else Ok result);
  _ ← load_global G "tf";
  result ← add result (KLayer ReLU);
  Ok result.

(** The list displays of lines 62-78: the calls are evaluated in
    order. *)
Definition make_down_stack : result (list sequential) :=
  _ ← load_global G "downsample"; d0 ← downsample 64 4 false;
  _ ← load_global G "downsample"; d1 ← downsample 128 4 true;
  _ ← load_global G "downsample"; d2 ← downsample 256 4 true;
  _ ← load_global G "downsample"; d3 ← downsample 512 4 true;
  _ ← load_global G "downsample"; d4 ← downsample 512 4 true;
  _ ← load_global G "downsample"; d5 ← downsample 512 4 true;
  _ ← load_global G "downsample"; d6 ← downsample 512 4 true;
  Ok [d0; d1; d2; d3; d4; d5; d6].

Definition make_up_stack : result (list sequential) :=
  _ ← load_global G "upsample"; u0 ← upsample 512 4 true;
  _ ← load_global G "upsample"; u1 ← upsample 512 4 true;
  _ ← load_global G "upsample"; u2 ← upsample 512 4 true;
  _ ← load_global G "upsample"; u3 ← upsample 256 4 false;
  _ ← load_global G "upsample"; u4 ← upsample 128 4 false;
  _ ← load_global G "upsample"; u5 ← upsample 64 4 false;
  Ok [u0; u1; u2; u3; u4; u5].

(** The final layer of Generator 1, as the constructor call of lines
    80-84 returns it; [use_bias] is not passed. *)
Definition last_layer : layer :=
  Conv2DTranspose_layer 3 (Int 4) (Int 2) same
    (random_normal_initializer (decimal 0 1) (decimal 2 100)) true (Some tanh).

(** Lines 88-90: [for down in down_stack: x = down(x); skips.append(x)] *)
Definition down_loop (down_stack : list sequential) (x : tensor)
    (skips : list tensor) : result (tensor * list tensor) :=
  foldlM (fun '(x, skips) down =>
            x ← call (CallSequential down) x;
            Ok (x, skips ++ [x]))
         (x, skips) down_stack.

(** Lines 93-95:
    [for up, skip in zip(up_stack, skips): x = up(x); x = Concatenate()([x, skip])] *)
Definition up_loop (pairs : list (sequential * tensor)) (x : tensor)
  : result tensor :=
  foldlM (fun x '(up, skip) =>
            x ← call (CallSequential up) x;
            _ ← load_global G "tf";
            concatenate x skip)
         x pairs.

(** The body of [create_g1_firegan_unet] from line 62 on, for the
    tensor bound to [inputs] at line 61. *)
Definition g1_unet_on (inputs : tensor) : result model :=
  down_stack ← make_down_stack;
  up_stack ← make_up_stack;
  _ ← load_global G "tf";
  let initializer := random_normal_initializer (decimal 0 1) (decimal 2 100) in
  _ ← load_global G "tf";
  last ← mkConv2DTranspose 3 (Int 4) (Int 2) same initializer true (Some tanh);
  let x := inputs in
  let skips := [] in
  '(x, skips) ← down_loop down_stack x skips;
  _ ← load_global G "reversed";
  let skips := rev (removelast skips) in
  _ ← load_global G "zip";
  x ← up_loop (zip up_stack skips) x;
  x ← call (CallLayer last) x;
  _ ← load_global G "tf";
  let g1_unet := {| inputs := inputs; outputs := x |} in
  Ok g1_unet.

(** [create_g1_firegan_unet()] *)
Definition create_g1_firegan_unet : result model :=
  _ ← load_global G "tf";
  let inputs := Input [384; 512; 3] in
  g1_unet_on inputs.

(** One [generator2.add(...)] statement adding a convolution layer.
    The argument expression is evaluated before the call: in the
    spectral branch the name [SpectralNormalization] is loaded first,
    then the name of the layer class; then the constructor [construct]
    is called. *)
Definition add_plain (generator2 : sequential) (cls : string)
    (construct : result layer) : result sequential :=
  _ ← load_global G cls;
  l ← construct;
  add generator2 (KLayer l).

Definition add_spectral (generator2 : sequential) (cls : string)
    (construct : result layer) : result sequential :=
  _ ← load_global G "SpectralNormalization";
  _ ← load_global G cls;
  l ← construct;
  add generator2 (KLayer (SpectralNormalization l)).

(** [generator2.add(BatchNormalization()); generator2.add(LeakyReLU(alpha=0.2))] *)
Definition add_bn_lrelu (generator2 : sequential) : result sequential :=
  _ ← load_global G "BatchNormalization";
  generator2 ← add generator2 (KLayer BatchNormalization);
  _ ← load_global G "LeakyReLU";
  add generator2 (KLayer (LeakyReLU (Some (decimal 2 10)))).

(** [create_g2_firegan(spectral_norm)] *)
Definition create_g2_firegan (spectral_norm : bool) : result sequential :=
  if spectral_norm then
    _ ← load_global G "keras";
    let generator2 := Sequential in
    _ ← load_global G "keras";
    generator2 ← add generator2 (KInput [384; 512; 6]);
    generator2 ← add_spectral generator2 "Conv2DTranspose"
      (mkConv2DTranspose 256 (Pair 5 5) (Pair 1 1) valid he_uniform true None);
    generator2 ← add_bn_lrelu generator2;
    generator2 ← add_spectral generator2 "Conv2D"
      (mkConv2D 128 (Pair 5 5) (Pair 1 1) valid he_uniform true None);
    generator2 ← add_bn_lrelu generator2;
    generator2 ← add_spectral generator2 "Conv2DTranspose"
      (mkConv2DTranspose 64 (Pair 3 3) (Pair 1 1) valid he_uniform true None);
    generator2 ← add_bn_lrelu generator2;
    generator2 ← add_spectral generator2 "Conv2D"
      (mkConv2D 32 (Pair 3 3) (Pair 1 1) valid he_uniform true None);
    generator2 ← add_bn_lrelu generator2;
    generator2 ← add_spectral generator2 "Conv2D"
      (mkConv2D 3 (Pair 1 1) (Pair 1 1) valid he_uniform true (Some tanh));
    Ok generator2
  else
    _ ← load_global G "keras";
    let generator2 := Sequential in
    _ ← load_global G "keras";
    generator2 ← add generator2 (KInput [384; 512; 6]);
    generator2 ← add_plain generator2 "Conv2DTranspose"
      (mkConv2DTranspose 256 (Pair 5 5) (Pair 1 1) valid he_uniform true None);
    generator2 ← add_bn_lrelu generator2;
    generator2 ← add_plain generator2 "Conv2D"
      (mkConv2D 128 (Pair 5 5) (Pair 1 1) valid he_uniform true None);
    generator2 ← add_bn_lrelu generator2;
    generator2 ← add_plain generator2 "Conv2DTranspose"
      (mkConv2DTranspose 64 (Pair 3 3) (Pair 1 1) valid he_uniform true None);
    generator2 ← add_bn_lrelu generator2;
    generator2 ← add_plain generator2 "Conv2D"
      (mkConv2D 32 (Pair 3 3) (Pair 1 1) valid he_uniform true None);
    generator2 ← add_bn_lrelu generator2;
    generator2 ← add_plain generator2 "Conv2D"
      (mkConv2D 3 (Pair 1 1) (Pair 1 1) valid he_uniform true (Some tanh));
    Ok generator2.

End Functions.

End FireGan.
Import FireGan.


(** ** Reading the constructed objects *)

Module Reading.

(** The layer under any spectral-normalization wrappers. *)
Fixpoint unwrap (l : layer) : layer :=
  match l with
  | SpectralNormalization l' => unwrap l'
  | _ => l
  end.

(** Convolution and transposed-convolution layers. *)
Definition is_conv (l : layer) : bool :=
  match l with
  | Conv2D _ | Conv2DTranspose _ => true
  | _ => false
  end.

Definition is_wrapped_conv (l : layer) : bool :=
  match l with
  | SpectralNormalization l' => is_conv l'
  | _ => false
  end.

(** Put the wrapper around the convolutions of a plain stack. *)
Definition wrap_conv (l : layer) : layer :=
  if is_conv l then SpectralNormalization l else l.

(** The blocks of a stack: each convolution opens a block, the layers
    after it up to the next convolution belong to it. *)
Fixpoint blocks_from (cur : list layer) (ls : list layer)
  : list (list layer) :=
  match ls with
  | [] => [cur]
  | l :: ls' =>
      if is_conv (unwrap l) then cur :: blocks_from [l] ls'
      else blocks_from (cur ++ [l]) ls'
  end.

Definition blocks (ls : list layer) : list (list layer) :=
  match ls with
  | [] => []
  | l :: ls' => blocks_from [l] ls'
  end.

Definition conv_config_of (l : layer) : option conv_config :=
  match unwrap l with
  | Conv2D c | Conv2DTranspose c => Some c
  | _ => None
  end.

(** Shapes after each convolution of a stack fed with shape [s]. *)
Fixpoint conv_shapes (ls : list layer) (s : list Z) : result (list (list Z)) :=
  match ls with
  | [] => Ok []
  | l :: ls' =>
      s' ← compute_output_shape l s;
      rest ← conv_shapes ls' s';
      Ok (if is_conv (unwrap l) then s' :: rest else rest)
  end.

(** Differences between successive entries, starting from [x0]. *)
Fixpoint deltas (x0 : Z) (xs : list Z) : list Z :=
  match xs with
  | [] => []
  | x :: xs' => (x - x0) :: deltas x xs'
  end.

Definition height (s : list Z) : Z := nth 0 s 0.
Definition width (s : list Z) : Z := nth 1 s 0.
Definition channels (s : list Z) : Z := nth 2 s 0.
Definition spatial (t : tensor) : Z * Z := (height (tshape t), width (tshape t)).

(** Every [Concatenate] node of a graph with its two operands, in the
    order the nodes were created. *)
Fixpoint concat_nodes (t : tensor) : list (tensor * tensor) :=
  match t with
  | Input _ => []
  | Apply _ x _ => concat_nodes x
  | Concat x skip _ => concat_nodes x ++ concat_nodes skip ++ [(x, skip)]
  end.

(** The tensors on the path from the input to [t] that follows the
    first operand of each node. *)
Fixpoint spine (t : tensor) : list tensor :=
  match t with
  | Input _ => [t]
  | Apply _ x _ => spine x ++ [t]
  | Concat x _ _ => spine x ++ [t]
  end.

(** The stack whose call produced [t]. *)
Definition called_stack (t : tensor) : option sequential :=
  match t with
  | Apply (CallSequential m) _ _ => Some m
  | _ => None
  end.

(** [t] is the output of calling [m] on [x]. *)
Definition output_of (m : sequential) (x t : tensor) : Prop :=
  exists s, t = Apply (CallSequential m) x s.

(** *** What a graph computes

    The graph is run over any carrier [T] of tensor values, any
    meaning [apply_layer] of the layers and any [concat]. *)
Section Semantics.
Context {T : Type}.
Variable apply_layer : layer -> T -> T.
Variable concat : T -> T -> T.

Definition run_sequential (m : sequential) (v : T) : T :=
  fold_left (fun v l => apply_layer l v) (seq_layers m) v.

Definition run_callee (f : callee) (v : T) : T :=
  match f with
  | CallSequential m => run_sequential m v
  | CallLayer l => apply_layer l v
  end.

Fixpoint run (t : tensor) (input : T) : T :=
  match t with
  | Input _ => input
  | Apply f x _ => run_callee f (run x input)
  | Concat x skip _ => concat (run x input) (run skip input)
  end.

(** [model(v)] *)
Definition predict (m : model) (v : T) : T := run (outputs m) v.

(** The pipeline as the specification words it.  First pass: the
    value goes through the downsampling stacks one after the other,
    every intermediate output is stored. *)
Definition spec_down_pass (down_stack : list sequential) (v : T)
  : T * list T :=
  fold_left (fun '(x, stored) down =>
               let y := run_sequential down x in (y, stored ++ [y]))
            down_stack (v, []).

(** Second pass: the value goes through the upsampling stacks one
    after the other; the output of the [i]-th is concatenated with
    the stored output number [pick i]. *)
Fixpoint spec_up_pass (up_stack : list sequential) (i : nat)
    (pick : nat -> nat) (stored : list T) (x : T) : T :=
  match up_stack with
  | [] => x
  | up :: rest =>
      let y := run_sequential up x in
      spec_up_pass rest (S i) pick stored (concat y (nth (pick i) stored y))
  end.

(** Then the final transposed convolution. *)
Definition spec_g1_pipeline (down_stack up_stack : list sequential)
    (last : layer) (pick : nat -> nat) (v : T) : T :=
  let '(x, stored) := spec_down_pass down_stack v in
  apply_layer last (spec_up_pass up_stack 0 pick stored x).

End Semantics.

End Reading.
Import Reading.

(** The module's namespace with the missing name bound, as after
    [from tensorflow_addons.layers import SpectralNormalization]. *)
Definition patched_globals : gset string :=
  {[ "SpectralNormalization" ]} ∪ module_globals.


(** The stack the plain branch declares (lines 143-161). *)
Definition g2_plain_layers : list layer :=
  [ Conv2DTranspose_layer 256 (Pair 5 5) (Pair 1 1) valid he_uniform true None;
    BatchNormalization; LeakyReLU (Some (decimal 2 10));
    Conv2D_layer 128 (Pair 5 5) (Pair 1 1) valid he_uniform true None;
    BatchNormalization; LeakyReLU (Some (decimal 2 10));
    Conv2DTranspose_layer 64 (Pair 3 3) (Pair 1 1) valid he_uniform true None;
    BatchNormalization; LeakyReLU (Some (decimal 2 10));
    Conv2D_layer 32 (Pair 3 3) (Pair 1 1) valid he_uniform true None;
    BatchNormalization; LeakyReLU (Some (decimal 2 10));
    Conv2D_layer 3 (Pair 1 1) (Pair 1 1) valid he_uniform true (Some tanh) ].

(** The list [skips] of [create_g1_firegan_unet] after its down loop
    (line 90): the outputs of the seven downsampling stacks, in order. *)
Definition g1_down_outputs : result (list tensor) :=
  down_stack ← make_down_stack module_globals;
  '(x, skips) ← down_loop down_stack (Input [384; 512; 3]) [];
  Ok skips.

(** Skip wiring at position [i] of Generator 1.  The [i]-th
    [Concatenate] node of the returned graph joins a tensor [u] produced
    by calling [up_stack[i]] with the tensor [d] stored at index [5 - i]
    of the down outputs, itself produced by calling [down_stack[5 - i]].
    The graph has six such nodes.  The seventh down output, the
    bottleneck, is the argument of the first upsampling call and is the
    skip operand of no node. *)
Definition skips_wired_at (i : nat) : Prop :=
  exists m down_stack up_stack downs,
    make_down_stack module_globals = Ok down_stack
    /\ make_up_stack module_globals = Ok up_stack
    /\ g1_down_outputs = Ok downs
    /\ create_g1_firegan_unet module_globals = Ok m
    /\ length downs = 7%nat
    /\ length (concat_nodes (outputs m)) = 6%nat
    /\ (exists up down u d,
          up_stack !! i = Some up
          /\ down_stack !! (5 - i)%nat = Some down
          /\ downs !! (5 - i)%nat = Some d
          /\ called_stack d = Some down
          /\ concat_nodes (outputs m) !! i = Some (u, d)
          /\ called_stack u = Some up)
    /\ (exists bottleneck,
          downs !! 6%nat = Some bottleneck
          /\ (bottleneck ∉ map snd (concat_nodes (outputs m)))
          /\ exists up0 s,
               map fst (concat_nodes (outputs m)) !! 0%nat
                 = Some (Apply up0 bottleneck s)).

(** The stacks the helper factories are specified to return: a
    convolution (stride 2, same padding, no bias), batch normalization
    if asked for, a leaky ReLU; and a transposed convolution (stride 2,
    same padding, no bias), batch normalization, dropout 0.5 if asked
    for, a ReLU. *)
Definition spec_downsample_stack (filters size : Z) (apply_batchnorm : bool)
  : sequential :=
  {| seq_input := None;
     seq_layers :=
       [ Conv2D {| filters := filters; kernel_size := (size, size);
                   strides := (2, 2); padding := same;
                   kernel_initializer :=
                     random_normal_initializer (decimal 0 1) (decimal 2 100);
                   use_bias := false; activation := None |} ]
       ++ (if apply_batchnorm then [BatchNormalization] else [])
       ++ [ LeakyReLU None ] |}.

Definition spec_upsample_stack (filters size : Z) (apply_dropout : bool)
  : sequential :=
  {| seq_input := None;
     seq_layers :=
       [ Conv2DTranspose
           {| filters := filters; kernel_size := (size, size);
              strides := (2, 2); padding := same;
              kernel_initializer :=
                random_normal_initializer (decimal 0 1) (decimal 2 100);
              use_bias := false; activation := None |};
         BatchNormalization ]
       ++ (if apply_dropout then [Dropout (decimal 5 10)] else [])
       ++ [ ReLU ] |}.

(** ** Proof support *)

Ltac run_model := vm_compute; reflexivity.

(** Split on whether a global name resolves. *)
Ltac split_lookup G name :=
  let E := fresh "E" in
  destruct (load_global G name) as [[]|?] eqn:E; cbn in *; try discriminate.

(** Run a stack up to its next convolution. *)
Ltac shape_step :=
  cbn [foldlM compute_output_shape conv2d_output_shape
       conv2d_transpose_output_shape mbind result_bind normalize_tuple
       kernel_size strides padding filters fst snd].

(** Arithmetic with the 64-bit bound written out. *)
Ltac sizes := unfold max_int64, max_int32 in *; lia.

(** * Theorems *)

(** ** Name resolution *)

Lemma load_global_bound (G : gset string) (name : string) :
  name ∈ G -> load_global G name = Ok tt.
Proof.
  intros H. unfold load_global.
  rewrite bool_decide_eq_true_2; [reflexivity | set_solver].
Qed.

Lemma load_global_raises (G : gset string) (name : string) (e : exn) :
  load_global G name = Raise e -> e = NameError name /\ name ∉ G.
Proof.
  unfold load_global. case_bool_decide as H; [discriminate|].
  intros [= <-]. split; [reflexivity | set_solver].
Qed.

Lemma SpectralNormalization_unbound :
  "SpectralNormalization" ∉ module_globals ∪ builtins.
Proof. apply (bool_decide_eq_false_1 _). vm_compute. reflexivity. Qed.

(** ** Generator 2 *)

(** Whatever the namespace, a model the plain branch returns is the
    declared stack on the declared input. *)
Lemma g2_plain_returns (G : gset string) (m : sequential) :
  create_g2_firegan G false = Ok m ->
  m = {| seq_input := Some [384; 512; 6]; seq_layers := g2_plain_layers |}.
Proof.
  unfold create_g2_firegan, add_plain, add_bn_lrelu.
  split_lookup G "keras".
  split_lookup G "Conv2DTranspose".
  split_lookup G "BatchNormalization".
  split_lookup G "LeakyReLU".
  split_lookup G "Conv2D".
  intros [= <-]. reflexivity.
Qed.

(** Whatever the namespace, a model the spectral branch returns is the
    same stack with each convolution inside the wrapper. *)
Lemma g2_spectral_returns (G : gset string) (m : sequential) :
  create_g2_firegan G true = Ok m ->
  m = {| seq_input := Some [384; 512; 6];
         seq_layers := map wrap_conv g2_plain_layers |}.
Proof.
  unfold create_g2_firegan, add_spectral, add_bn_lrelu.
  split_lookup G "keras".
  split_lookup G "SpectralNormalization".
  split_lookup G "Conv2DTranspose".
  split_lookup G "BatchNormalization".
  split_lookup G "LeakyReLU".
  split_lookup G "Conv2D".
  intros [= <-]. reflexivity.
Qed.

(** The spectral branch returns only where the wrapper's name is bound. *)
Lemma g2_spectral_needs_name (G : gset string) (m : sequential) :
  create_g2_firegan G true = Ok m -> "SpectralNormalization" ∈ G.
Proof.
  unfold create_g2_firegan, add_spectral.
  split_lookup G "keras".
  destruct (load_global G "SpectralNormalization") as [[]|e] eqn:L;
    cbn; [|discriminate].
  intros _. unfold load_global in L. case_bool_decide as H; [|discriminate].
  apply elem_of_union in H as [H|H]; [exact H|].
  assert (bool_decide ("SpectralNormalization" ∈ builtins) = false) as N
    by (vm_compute; reflexivity).
  apply bool_decide_eq_false in N. contradiction.
Qed.

(** Where the wrapper's name is bound, the spectral branch returns
    whenever the plain branch does, and returns the plain stack with
    each convolution wrapped, on the same input. *)
Lemma g2_spectral_wraps_plain (G : gset string) (plain : sequential) :
  "SpectralNormalization" ∈ G ->
  create_g2_firegan G false = Ok plain ->
  create_g2_firegan G true
    = Ok {| seq_input := seq_input plain;
            seq_layers := map wrap_conv (seq_layers plain) |}.
Proof.
  intros HS H. pose proof (g2_plain_returns _ _ H) as ->.
  apply load_global_bound in HS.
  revert H. unfold create_g2_firegan, add_plain, add_spectral, add_bn_lrelu.
  split_lookup G "keras". rewrite HS; cbn.
  split_lookup G "Conv2DTranspose".
  split_lookup G "BatchNormalization".
  split_lookup G "LeakyReLU".
  split_lookup G "Conv2D".
  intros _. reflexivity.
Qed.

(** *** Shape arithmetic of single layers *)

Lemma checked_dim_ok (n : Z) :
  0 <= n <= max_int64 -> checked_dim n = Ok n.
Proof.
  intros Hn. unfold checked_dim.
  destruct (Z.ltb_spec n 0); [lia|].
  destruct (Z.ltb_spec max_int64 n); [lia | reflexivity].
Qed.

Lemma checked_shape_ok (h w c : Z) :
  0 <= h <= max_int64 -> 0 <= w <= max_int64 ->
  checked_shape h w c = Ok [h; w; c].
Proof.
  intros Hh Hw. unfold checked_shape.
  rewrite !checked_dim_ok by assumption. reflexivity.
Qed.

Lemma checked_channels_ok (c : Z) : 0 < c -> checked_channels c = Ok tt.
Proof.
  intros Hc. unfold checked_channels.
  destruct (Z.ltb_spec 0 c); [reflexivity | lia].
Qed.


(** A stride-1 valid convolution with a [k]-wide kernel loses [k - 1]. *)
Lemma conv_valid_stride1 (n k : Z) :
  conv_output_length n k valid 1 = n - (k - 1).
Proof. unfold conv_output_length. rewrite Z.div_1_r. lia. Qed.

(** A stride-1 valid transposed convolution gains [k - 1]. *)
Lemma deconv_valid_stride1 (n k : Z) :
  1 <= k -> deconv_output_length n k valid 1 = n + (k - 1).
Proof. intros Hk. unfold deconv_output_length. lia. Qed.

(** A stride-2 same convolution halves, rounding up. *)
Lemma conv_same_stride2 (n k : Z) :
  conv_output_length n k same 2 = (n + 1) / 2.
Proof. unfold conv_output_length. f_equal. lia. Qed.

(** A stride-2 same transposed convolution doubles. *)
Lemma deconv_same_stride2 (n k : Z) :
  deconv_output_length n k same 2 = 2 * n.
Proof. unfold deconv_output_length. lia. Qed.

Lemma half_up_pos (n : Z) : 0 < n -> 0 < (n + 1) / 2.
Proof. intros H. apply Z.div_str_pos. lia. Qed.

(** One convolution of a stack: its channels are there, its sizes fit. *)
Ltac conv_ok :=
  shape_step; rewrite checked_channels_ok by lia; cbn [mbind result_bind];
  rewrite ?deconv_valid_stride1, ?conv_valid_stride1 by lia;
  rewrite checked_shape_ok by sizes.

(** The plain stack of Generator 2 keeps height and width of any
    non-empty 6-channel image, not only of the declared one. *)
Lemma g2_plain_layers_keep_spatial (h w : Z) :
  0 < h -> 0 < w -> h + 4 <= max_int64 -> w + 4 <= max_int64 ->
  layers_output_shape g2_plain_layers [h; w; 6] = Ok [h; w; 3].
Proof.
  intros Hh Hw Bh Bw.
  unfold layers_output_shape, g2_plain_layers, Conv2D_layer, Conv2DTranspose_layer.
  conv_ok. conv_ok. conv_ok. conv_ok. conv_ok.
  shape_step. do 2 f_equal; [lia | f_equal; lia].
Qed.

(** *** The helper factories and the constructor checks *)

Lemma tf_bound : "tf" ∈ module_globals.
Proof. apply (bool_decide_eq_true_1 _). vm_compute. reflexivity. Qed.

Lemma conv_arguments_ok_iff (filters size : Z) :
  conv_arguments_ok filters (Int size) (Int 2) = true
  <-> 0 < filters /\ 0 < size.
Proof.
  unfold conv_arguments_ok, positive_pair. cbn [normalize_tuple fst snd].
  rewrite !andb_true_iff, !Z.ltb_lt. lia.
Qed.

(** With [tf] bound, [downsample] returns its stack on positive
    arguments and ends in the constructor's [ValueError] on others. *)
Lemma downsample_returns (G : gset string) (filters size : Z) (bn : bool) :
  "tf" ∈ G -> 0 < filters -> 0 < size ->
  downsample G filters size bn = Ok (spec_downsample_stack filters size bn).
Proof.
  intros Htf Hf Hs. unfold downsample, mkConv2D.
  rewrite (load_global_bound G "tf" Htf).
  rewrite (proj2 (conv_arguments_ok_iff filters size)) by auto.
  destruct bn; reflexivity.
Qed.

Lemma upsample_returns (G : gset string) (filters size : Z) (dropout : bool) :
  "tf" ∈ G -> 0 < filters -> 0 < size ->
  upsample G filters size dropout
    = Ok (spec_upsample_stack filters size dropout).
Proof.
  intros Htf Hf Hs. unfold upsample, mkConv2DTranspose.
  rewrite (load_global_bound G "tf" Htf).
  rewrite (proj2 (conv_arguments_ok_iff filters size)) by auto.
  destruct dropout; reflexivity.
Qed.

Lemma downsample_refuses (G : gset string) (filters size : Z) (bn : bool) :
  "tf" ∈ G -> ~ (0 < filters /\ 0 < size) ->
  downsample G filters size bn = Raise (ValueError InvalidArgument).
Proof.
  intros Htf Hn. unfold downsample, mkConv2D.
  rewrite (load_global_bound G "tf" Htf).
  destruct (conv_arguments_ok filters (Int size) (Int 2)) eqn:E;
    [apply conv_arguments_ok_iff in E; contradiction | reflexivity].
Qed.

Lemma upsample_refuses (G : gset string) (filters size : Z) (dropout : bool) :
  "tf" ∈ G -> ~ (0 < filters /\ 0 < size) ->
  upsample G filters size dropout = Raise (ValueError InvalidArgument).
Proof.
  intros Htf Hn. unfold upsample, mkConv2DTranspose.
  rewrite (load_global_bound G "tf" Htf).
  destruct (conv_arguments_ok filters (Int size) (Int 2)) eqn:E;
    [apply conv_arguments_ok_iff in E; contradiction | reflexivity].
Qed.

(** Any stack a helper factory returns is the specified one, and its
    arguments were positive. *)
Lemma downsample_inv (G : gset string) (filters size : Z) (bn : bool)
    (m : sequential) :
  downsample G filters size bn = Ok m ->
  m = spec_downsample_stack filters size bn /\ 0 < filters /\ 0 < size.
Proof.
  intros H. unfold downsample, mkConv2D in H. split_lookup G "tf".
  destruct (conv_arguments_ok filters (Int size) (Int 2)) eqn:A;
    [|discriminate].
  apply conv_arguments_ok_iff in A.
  destruct bn; cbn in H; injection H as <-; auto.
Qed.

Lemma upsample_inv (G : gset string) (filters size : Z) (dropout : bool)
    (m : sequential) :
  upsample G filters size dropout = Ok m ->
  m = spec_upsample_stack filters size dropout /\ 0 < filters /\ 0 < size.
Proof.
  intros H. unfold upsample, mkConv2DTranspose in H. split_lookup G "tf".
  destruct (conv_arguments_ok filters (Int size) (Int 2)) eqn:A;
    [|discriminate].
  apply conv_arguments_ok_iff in A.
  destruct dropout; cbn in H; injection H as <-; auto.
Qed.

(** *** Claims on Generator 2 *)

(** C1.  [create_g2_firegan(True)] does not return a model: the call ends
    in [NameError: SpectralNormalization], a name no import of the module
    binds.  [create_g2_firegan(False)] returns a linear stack of five
    blocks, each opened by a convolution or transposed convolution. *)
Theorem g2_spectral_flag_raises :
  create_g2_firegan module_globals true
    = Raise (NameError "SpectralNormalization")
  /\ exists m,
       create_g2_firegan module_globals false = Ok m
       /\ length (blocks (seq_layers m)) = 5%nat
       /\ forallb (fun b => is_conv (hd BatchNormalization b))
                  (blocks (seq_layers m)) = true
       /\ concat (blocks (seq_layers m)) = seq_layers m.
Proof.
  split; [run_model|].
  eexists. split; [run_model|]. repeat split.
Qed.

(** C2.  Construction errors by origin.  [create_g1_firegan_unet] and
    [create_g2_firegan(False)] raise nothing; [downsample] and [upsample]
    raise nothing on positive [filters] and [size], and whatever they
    raise on other arguments comes from the framework (the constructor
    refuses the argument).  [create_g2_firegan(True)] raises an
    exception that originates in the module's own code, not in the
    framework. *)
Theorem g2_spectral_error_is_repository_error :
  (forall filters size b, 0 < filters -> 0 < size ->
     succeeds (downsample module_globals filters size b) = true)
  /\ (forall filters size b, 0 < filters -> 0 < size ->
       succeeds (upsample module_globals filters size b) = true)
  /\ (forall filters size b e,
       downsample module_globals filters size b = Raise e ->
       exn_origin e = Framework)
  /\ (forall filters size b e,
       upsample module_globals filters size b = Raise e ->
       exn_origin e = Framework)
  /\ succeeds (create_g1_firegan_unet module_globals) = true
  /\ succeeds (create_g2_firegan module_globals false) = true
  /\ exists e,
       create_g2_firegan module_globals true = Raise e
       /\ exn_origin e = Repository
       /\ exn_origin e <> Framework.
Proof.
  split.
  { intros f k b Hf Hk. rewrite (downsample_returns _ _ _ _ tf_bound Hf Hk).
    reflexivity. }
  split.
  { intros f k b Hf Hk. rewrite (upsample_returns _ _ _ _ tf_bound Hf Hk).
    reflexivity. }
  split.
  { intros f k b e H.
    destruct (decide (0 < f /\ 0 < k)) as [[Hf Hk]|Hn].
    - rewrite (downsample_returns _ _ _ _ tf_bound Hf Hk) in H. discriminate.
    - rewrite (downsample_refuses _ _ _ _ tf_bound Hn) in H.
      injection H as <-. reflexivity. }
  split.
  { intros f k b e H.
    destruct (decide (0 < f /\ 0 < k)) as [[Hf Hk]|Hn].
    - rewrite (upsample_returns _ _ _ _ tf_bound Hf Hk) in H. discriminate.
    - rewrite (upsample_refuses _ _ _ _ tf_bound Hn) in H.
      injection H as <-. reflexivity. }
  split; [run_model|]. split; [run_model|].
  exists (NameError "SpectralNormalization").
  split; [run_model|]. split; [reflexivity | discriminate].
Qed.

(** C5.  In the module's namespace only the plain branch constructs a
    stack; the spectral branch raises [NameError].  With the name
    [SpectralNormalization] bound, the spectral branch constructs the stack
    of the plain branch with the wrapper around each of its five
    convolutions and around nothing else, on the same input. *)
Theorem g2_branches_declare_same_stack :
  exists plain,
    create_g2_firegan module_globals false = Ok plain
    /\ create_g2_firegan patched_globals false = Ok plain
    /\ create_g2_firegan module_globals true
         = Raise (NameError "SpectralNormalization")
    /\ create_g2_firegan patched_globals true
         = Ok {| seq_input := seq_input plain;
                 seq_layers := map wrap_conv (seq_layers plain) |}
    /\ map unwrap (map wrap_conv (seq_layers plain)) = seq_layers plain
    /\ length (filter (fun l => is_conv l = true) (seq_layers plain)) = 5%nat
    /\ length (filter (fun l => is_wrapped_conv l = true)
                      (map wrap_conv (seq_layers plain))) = 5%nat.
Proof.
  exists {| seq_input := Some [384; 512; 6]; seq_layers := g2_plain_layers |}.
  assert (create_g2_firegan patched_globals false
          = Ok {| seq_input := Some [384; 512; 6];
                  seq_layers := g2_plain_layers |}) as E by run_model.
  split; [run_model|]. split; [exact E|]. split; [run_model|].
  split.
  - apply g2_spectral_wraps_plain; [|exact E].
    unfold patched_globals. set_solver.
  - repeat split.
Qed.

(** C7.  Any model [create_g2_firegan] returns, for either flag and in any
    namespace, declares the input [(384, 512, 6)]; its last layer is a
    convolution (inside the wrapper or not) with 3 filters and [tanh]
    activation, and the stack turns the 6-channel input into a 3-channel
    output. *)
Theorem g2_fusion_interface (G : gset string) (spectral_norm : bool)
    (m : sequential) :
  create_g2_firegan G spectral_norm = Ok m ->
  seq_input m = Some [384; 512; 6]
  /\ channels [384; 512; 6] = 6
  /\ (exists l c, last (seq_layers m) = Some l
                  /\ unwrap l = Conv2D c
                  /\ filters c = 3
                  /\ activation c = Some tanh)
  /\ exists s, layers_output_shape (seq_layers m) [384; 512; 6] = Ok s
               /\ channels s = 3.
Proof.
  intros H. destruct spectral_norm.
  - apply g2_spectral_returns in H. subst m.
    split; [reflexivity|]. split; [reflexivity|].
    split; [do 2 eexists; repeat split | eexists; split; [run_model | reflexivity]].
  - apply g2_plain_returns in H. subst m.
    split; [reflexivity|]. split; [reflexivity|].
    split; [do 2 eexists; repeat split | eexists; split; [run_model | reflexivity]].
Qed.

(** The interface on the model the module itself returns for
    [spectral_norm = False]. *)
Lemma g2_fusion_interface_witness :
  exists m,
    create_g2_firegan module_globals false = Ok m
    /\ seq_input m = Some [384; 512; 6]
    /\ channels [384; 512; 6] = 6
    /\ (exists l c, last (seq_layers m) = Some l
                    /\ unwrap l = Conv2D c
                    /\ filters c = 3
                    /\ activation c = Some tanh)
    /\ exists s, layers_output_shape (seq_layers m) [384; 512; 6] = Ok s
                 /\ channels s = 3.
Proof.
  exists {| seq_input := Some [384; 512; 6]; seq_layers := g2_plain_layers |}.
  assert (create_g2_firegan module_globals false
          = Ok {| seq_input := Some [384; 512; 6];
                  seq_layers := g2_plain_layers |}) as E
    by (vm_compute; reflexivity).
  split; [exact E|].
  exact (g2_fusion_interface module_globals false _ E).
Defined.

(** C9.  The plain branch of Generator 2 maps [(384, 512, 6)] to
    [(384, 512, 3)]: all five convolutions use valid padding and stride 1,
    and after them height and width change by +4, -4, +2, -2 and 0. *)
Theorem g2_plain_shape_preserving :
  exists m shapes,
    create_g2_firegan module_globals false = Ok m
    /\ seq_input m = Some [384; 512; 6]
    /\ filter (fun l => is_conv l = true) (seq_layers m)
         = [ Conv2DTranspose_layer 256 (Pair 5 5) (Pair 1 1) valid he_uniform true None;
             Conv2D_layer 128 (Pair 5 5) (Pair 1 1) valid he_uniform true None;
             Conv2DTranspose_layer 64 (Pair 3 3) (Pair 1 1) valid he_uniform true None;
             Conv2D_layer 32 (Pair 3 3) (Pair 1 1) valid he_uniform true None;
             Conv2D_layer 3 (Pair 1 1) (Pair 1 1) valid he_uniform true (Some tanh) ]
    /\ map padding (omap conv_config_of (seq_layers m))
         = [valid; valid; valid; valid; valid]
    /\ map strides (omap conv_config_of (seq_layers m))
         = [(1, 1); (1, 1); (1, 1); (1, 1); (1, 1)]
    /\ map kernel_size (omap conv_config_of (seq_layers m))
         = [(5, 5); (5, 5); (3, 3); (3, 3); (1, 1)]
    /\ conv_shapes (seq_layers m) [384; 512; 6] = Ok shapes
    /\ deltas 384 (map height shapes) = [4; -4; 2; -2; 0]
    /\ deltas 512 (map width shapes) = [4; -4; 2; -2; 0]
    /\ layers_output_shape (seq_layers m) [384; 512; 6] = Ok [384; 512; 3].
Proof.
  exists {| seq_input := Some [384; 512; 6]; seq_layers := g2_plain_layers |}.
  eexists. split; [run_model|]. split; [reflexivity|].
  split; [reflexivity|]. split; [reflexivity|].
  split; [reflexivity|]. split; [reflexivity|]. split; [run_model|].
  split; [reflexivity|]. split; [reflexivity|].
  apply g2_plain_layers_keep_spatial; sizes.
Qed.

(** ** The helper factories *)

(** C6, as amended.  For every positive [filters] and [size],
    [downsample] returns the stack convolution (stride 2, same padding,
    no bias), batch normalization iff [apply_batchnorm], leaky ReLU, and
    [upsample] returns the stack transposed convolution (stride 2, same
    padding, no bias), batch normalization, dropout 0.5 iff
    [apply_dropout], ReLU. *)
Theorem downsample_upsample_stacks (filters size : Z)
    (apply_batchnorm apply_dropout : bool) :
  0 < filters -> 0 < size ->
  downsample module_globals filters size apply_batchnorm
    = Ok {| seq_input := None;
            seq_layers :=
              [ Conv2D {| filters := filters; kernel_size := (size, size);
                          strides := (2, 2); padding := same;
                          kernel_initializer :=
                            random_normal_initializer (decimal 0 1) (decimal 2 100);
                          use_bias := false; activation := None |} ]
              ++ (if apply_batchnorm then [BatchNormalization] else [])
              ++ [ LeakyReLU None ] |}
  /\ upsample module_globals filters size apply_dropout
    = Ok {| seq_input := None;
            seq_layers :=
              [ Conv2DTranspose
                  {| filters := filters; kernel_size := (size, size);
                     strides := (2, 2); padding := same;
                     kernel_initializer :=
                       random_normal_initializer (decimal 0 1) (decimal 2 100);
                     use_bias := false; activation := None |};
                BatchNormalization ]
              ++ (if apply_dropout then [Dropout (decimal 5 10)] else [])
              ++ [ ReLU ] |}.
Proof.
  intros Hf Hk. split.
  - rewrite (downsample_returns _ _ _ _ tf_bound Hf Hk). reflexivity.
  - rewrite (upsample_returns _ _ _ _ tf_bound Hf Hk). reflexivity.
Qed.

(** The stacks of [downsample(64, 4)] and [upsample(64, 4)]. *)
Lemma downsample_upsample_stacks_witness :
  0 < 64 /\ 0 < 4
  /\ downsample module_globals 64 4 true = Ok (spec_downsample_stack 64 4 true)
  /\ upsample module_globals 64 4 false = Ok (spec_upsample_stack 64 4 false).
Proof.
  split; [lia|]. split; [lia|].
  apply (downsample_upsample_stacks 64 4 true false); lia.
Defined.

(** C6 as stated, for every integer, fails: with [filters = 0] the call
    [Conv2D(0, 4, ...)] of line 33 raises [ValueError] and [downsample]
    returns no stack; with [size = 0] the call [Conv2DTranspose(64, 0,
    ...)] of line 50 does the same to [upsample]. *)
Lemma downsample_upsample_refuse_zero :
  downsample module_globals 0 4 true = Raise (ValueError InvalidArgument)
  /\ downsample module_globals 0 4 true <> Ok (spec_downsample_stack 0 4 true)
  /\ upsample module_globals 64 0 false = Raise (ValueError InvalidArgument)
  /\ upsample module_globals 64 0 false <> Ok (spec_upsample_stack 64 0 false).
Proof.
  assert (downsample module_globals 0 4 true
          = Raise (ValueError InvalidArgument)) as D by run_model.
  assert (upsample module_globals 64 0 false
          = Raise (ValueError InvalidArgument)) as U by run_model.
  rewrite D, U. repeat split; discriminate.
Qed.

Lemma half_up_bounds (n : Z) :
  0 <= n <= max_int64 -> 0 <= (n + 1) / 2 <= max_int64.
Proof. intros H. unfold max_int64 in *. Z.div_mod_to_equations. lia. Qed.

(** In any namespace, a stack [downsample] returns halves height and
    width (rounding up) and sets the channels to [filters]. *)
Lemma downsample_halves (G : gset string) (filters size : Z) (bn : bool)
    (m : sequential) (h w c : Z) :
  downsample G filters size bn = Ok m ->
  0 <= h <= max_int64 -> 0 <= w <= max_int64 -> 0 < c ->
  layers_output_shape (seq_layers m) [h; w; c]
    = Ok [(h + 1) / 2; (w + 1) / 2; filters].
Proof.
  intros H Hh Hw Hc. apply downsample_inv in H as (-> & _ & _).
  unfold layers_output_shape, spec_downsample_stack.
  destruct bn; cbn [seq_layers app]; shape_step;
    rewrite checked_channels_ok by lia; cbn [mbind result_bind];
    rewrite !conv_same_stride2, checked_shape_ok by (apply half_up_bounds; lia);
    reflexivity.
Qed.

(** In any namespace, a stack [upsample] returns doubles height and
    width and sets the channels to [filters]. *)
Lemma upsample_doubles (G : gset string) (filters size : Z) (dropout : bool)
    (m : sequential) (h w c : Z) :
  upsample G filters size dropout = Ok m ->
  0 <= h -> 2 * h <= max_int64 -> 0 <= w -> 2 * w <= max_int64 -> 0 < c ->
  layers_output_shape (seq_layers m) [h; w; c] = Ok [2 * h; 2 * w; filters].
Proof.
  intros H Hh Bh Hw Bw Hc. apply upsample_inv in H as (-> & _ & _).
  unfold layers_output_shape, spec_upsample_stack.
  destruct dropout; cbn [seq_layers app]; shape_step;
    rewrite checked_channels_ok by lia; cbn [mbind result_bind];
    rewrite !deconv_same_stride2, checked_shape_ok by lia;
    reflexivity.
Qed.

(** ** Generator 1 *)

Lemma bind_Ok_inv {A B} (m : result A) (f : A -> result B) (b : B) :
  (m ≫= f) = Ok b -> exists a, m = Ok a /\ f a = Ok b.
Proof. destruct m as [a|e]; cbn; [eauto | discriminate]. Qed.

(** A successful call of a stack makes a node over its argument. *)
Lemma call_sequential_inv (d : sequential) (x y : tensor) :
  call (CallSequential d) x = Ok y -> output_of d x y.
Proof.
  unfold call. intros H.
  apply bind_Ok_inv in H as (_ & _ & H).
  apply bind_Ok_inv in H as (s & _ & [= <-]).
  exists s. reflexivity.
Qed.

(** A successful concatenation makes a node over both operands, which
    agree in height and width. *)
Lemma concatenate_inv (x skip y : tensor) :
  concatenate x skip = Ok y ->
  (exists s, y = Concat x skip s) /\ spatial x = spatial skip.
Proof.
  unfold concatenate, spatial, height, width.
  destruct (tshape x) as [|h [|w [|c [|]]]]; try discriminate.
  destruct (tshape skip) as [|h' [|w' [|c' [|]]]]; try discriminate.
  destruct ((h =? h') && (w =? w')) eqn:E; [|discriminate].
  apply andb_true_iff in E as [Eh Ew].
  intros [= <-]. split; [eauto|].
  apply Z.eqb_eq in Eh. apply Z.eqb_eq in Ew. subst. reflexivity.
Qed.

(** The down loop appends one tensor per stack. *)
Lemma down_loop_length (down_stack : list sequential) :
  forall x skips x' skips',
    down_loop down_stack x skips = Ok (x', skips') ->
    length skips' = (length skips + length down_stack)%nat.
Proof.
  induction down_stack as [|d ds IH]; intros x skips x' skips' H.
  - injection H as <- <-. cbn. lia.
  - unfold down_loop in H. cbn [foldlM] in H.
    apply bind_Ok_inv in H as ([y sk] & Hstep & H).
    apply bind_Ok_inv in Hstep as (y' & _ & [= <- <-]).
    apply IH in H. rewrite H, length_app. cbn. lia.
Qed.

Section RunsAsWired.
Context {T : Type}.
Variable apply_layer : layer -> T -> T.
Variable concat : T -> T -> T.
Variable v : T.

Local Abbreviation value t := (run apply_layer concat t v).

(** What the down loop builds computes the first pass of the
    pipeline: each stack is run on the previous output, each output is
    stored. *)
Lemma down_loop_run (down_stack : list sequential) :
  forall x skips x' skips',
    down_loop down_stack x skips = Ok (x', skips') ->
    fold_left (fun '(a, stored) down =>
                 let y := run_sequential apply_layer down a in
                 (y, stored ++ [y]))
              down_stack (value x, map (fun t => value t) skips)
      = (value x', map (fun t => value t) skips').
Proof.
  induction down_stack as [|d ds IH]; intros x skips x' skips' H.
  - injection H as <- <-. reflexivity.
  - unfold down_loop in H. cbn [foldlM] in H.
    apply bind_Ok_inv in H as ([y sk] & Hstep & H).
    apply bind_Ok_inv in Hstep as (y' & Hcall & [= <- <-]).
    apply call_sequential_inv in Hcall as [s ->].
    apply IH in H. cbn [fold_left]. rewrite <- H.
    rewrite map_app. reflexivity.
Qed.

(** What the up loop builds computes the second pass: each stack is
    run on the previous output and the result concatenated with the
    skip tensor zipped to it. *)
Lemma up_loop_run (G : gset string) (pairs : list (sequential * tensor)) :
  forall x x',
    up_loop G pairs x = Ok x' ->
    value x'
      = fold_left (fun a '(up, skip) =>
                     concat (run_sequential apply_layer up a) (value skip))
                  pairs (value x).
Proof.
  induction pairs as [|[up skip] ps IH]; intros x x' H.
  - injection H as <-. reflexivity.
  - unfold up_loop in H. cbn [foldlM] in H.
    apply bind_Ok_inv in H as (y & Hstep & H).
    apply bind_Ok_inv in Hstep as (u & Hcall & Hstep).
    apply bind_Ok_inv in Hstep as (_ & _ & Hcat).
    apply call_sequential_inv in Hcall as [s ->].
    apply concatenate_inv in Hcat as [[s' ->] _].
    apply IH in H. rewrite H. reflexivity.
Qed.

End RunsAsWired.

Lemma make_down_stack_length (G : gset string) (down_stack : list sequential) :
  make_down_stack G = Ok down_stack -> length down_stack = 7%nat.
Proof.
  unfold make_down_stack. intros H.
  repeat (apply bind_Ok_inv in H as (? & _ & H)).
  injection H as <-. reflexivity.
Qed.

Lemma make_up_stack_length (G : gset string) (up_stack : list sequential) :
  make_up_stack G = Ok up_stack -> length up_stack = 6%nat.
Proof.
  unfold make_up_stack. intros H.
  repeat (apply bind_Ok_inv in H as (? & _ & H)).
  injection H as <-. reflexivity.
Qed.

Lemma call_layer_inv (l : layer) (x y : tensor) :
  call (CallLayer l) x = Ok y -> exists s, y = Apply (CallLayer l) x s.
Proof.
  unfold call. intros H.
  apply bind_Ok_inv in H as (s & _ & [= <-]). eauto.
Qed.

(** The constructor call of lines 80-84 returns the final layer. *)
Lemma last_layer_constructed :
  mkConv2DTranspose 3 (Int 4) (Int 2) same
    (random_normal_initializer (decimal 0 1) (decimal 2 100)) true (Some tanh)
  = Ok last_layer.
Proof. reflexivity. Qed.

(** The steps of a successful run of the body of
    [create_g1_firegan_unet]. *)
Lemma g1_unet_on_inv (G : gset string) (inputs : tensor) (m : model) :
  g1_unet_on G inputs = Ok m ->
  exists down_stack up_stack x skips x2 x3,
    make_down_stack G = Ok down_stack
    /\ make_up_stack G = Ok up_stack
    /\ down_loop down_stack inputs [] = Ok (x, skips)
    /\ up_loop G (zip up_stack (rev (removelast skips))) x = Ok x2
    /\ call (CallLayer last_layer) x2 = Ok x3
    /\ m = {| Keras.inputs := inputs; outputs := x3 |}.
Proof.
  unfold g1_unet_on. intros H.
  apply bind_Ok_inv in H as (ds & Hds & H).
  apply bind_Ok_inv in H as (us & Hus & H).
  apply bind_Ok_inv in H as (_ & _ & H).
  apply bind_Ok_inv in H as (_ & _ & H).
  rewrite last_layer_constructed in H.
  apply bind_Ok_inv in H as (lst & [= <-] & H).
  apply bind_Ok_inv in H as ([x skips] & Hdown & H).
  apply bind_Ok_inv in H as (_ & _ & H).
  apply bind_Ok_inv in H as (_ & _ & H).
  apply bind_Ok_inv in H as (x2 & Hup & H).
  apply bind_Ok_inv in H as (x3 & Hlast & H).
  apply bind_Ok_inv in H as (_ & _ & [= <-]).
  exists ds, us, x, skips, x2, x3. auto 10.
Qed.

(** In any namespace and on any input shape for which the construction
    goes through, the graph [create_g1_firegan_unet] wires computes the
    pipeline of the specification, the [i]-th upsampling output meeting
    the stored output number [5 - i]. *)
Lemma g1_unet_on_run (G : gset string) (shape : list Z) (m : model) :
  g1_unet_on G (Input shape) = Ok m ->
  exists down_stack up_stack,
    make_down_stack G = Ok down_stack
    /\ make_up_stack G = Ok up_stack
    /\ inputs m = Input shape
    /\ forall (T : Type) (apply_layer : layer -> T -> T)
              (concat : T -> T -> T) (v : T),
         predict apply_layer concat m v
           = spec_g1_pipeline apply_layer concat down_stack up_stack
               last_layer (fun i => 5 - i)%nat v.
Proof.
  intros H.
  apply g1_unet_on_inv in H
    as (ds & us & x & skips & x2 & x3 & Hds & Hus & Hdown & Hup & Hlast & ->).
  exists ds, us. split; [exact Hds|]. split; [exact Hus|].
  split; [reflexivity|].
  intros T apply_layer concat v.
  pose proof (down_loop_length _ _ _ _ _ Hdown) as Hlen.
  rewrite (make_down_stack_length _ _ Hds) in Hlen. cbn in Hlen.
  pose proof (make_up_stack_length _ _ Hus) as Hlen'.
  apply (down_loop_run apply_layer concat v) in Hdown.
  apply (up_loop_run apply_layer concat v) in Hup.
  apply call_layer_inv in Hlast as [s ->].
  unfold predict, spec_g1_pipeline, spec_down_pass.
  cbn [outputs run run_callee map] in *.
  rewrite Hdown, Hup.
  do 8 (destruct skips as [|? skips]; try discriminate).
  do 7 (destruct us as [|? us]; try discriminate).
  reflexivity.
Qed.


(** *** Claims on Generator 1 *)

(** C3.  The model [create_g1_firegan_unet] returns computes, on every
    input value and under every reading of the layers, the pipeline: the
    seven downsampling stacks in sequence with each output stored, the
    six upsampling stacks in sequence with each output concatenated with
    a stored output, then the final transposed convolution. *)
Theorem g1_computes_pipeline :
  exists down_stack up_stack m,
    make_down_stack module_globals = Ok down_stack
    /\ length down_stack = 7%nat
    /\ make_up_stack module_globals = Ok up_stack
    /\ length up_stack = 6%nat
    /\ create_g1_firegan_unet module_globals = Ok m
    /\ inputs m = Input [384; 512; 3]
    /\ unwrap last_layer
         = Conv2DTranspose_layer 3 (Int 4) (Int 2) same
             (random_normal_initializer (decimal 0 1) (decimal 2 100))
             true (Some tanh)
    /\ forall (T : Type) (apply_layer : layer -> T -> T)
              (concat : T -> T -> T) (v : T),
         predict apply_layer concat m v
           = spec_g1_pipeline apply_layer concat down_stack up_stack
               last_layer (fun i => 5 - i)%nat v.
Proof.
  destruct (create_g1_firegan_unet module_globals) as [m|e] eqn:E;
    [|vm_compute in E; discriminate].
  unfold create_g1_firegan_unet in E.
  apply bind_Ok_inv in E as (_ & _ & E).
  destruct (g1_unet_on_run _ _ _ E) as (ds & us & Hds & Hus & Hin & Hrun).
  exists ds, us, m.
  split; [exact Hds|]. split; [exact (make_down_stack_length _ _ Hds)|].
  split; [exact Hus|]. split; [exact (make_up_stack_length _ _ Hus)|].
  split; [reflexivity|]. split; [exact Hin|]. split; [reflexivity|].
  exact Hrun.
Qed.

(** C4.  In the graph built for the input [(384, 512, 3)] there are six
    concatenations; at each, the upsampling output and the stored
    downsampling output it is joined with have the same height and
    width: 6x8, 12x16, 24x32, 48x64, 96x128, 192x256. *)
Theorem g1_concatenations_well_formed :
  exists m down_stack up_stack,
    create_g1_firegan_unet module_globals = Ok m
    /\ make_down_stack module_globals = Ok down_stack
    /\ make_up_stack module_globals = Ok up_stack
    /\ inputs m = Input [384; 512; 3]
    /\ length (concat_nodes (outputs m)) = 6%nat
    /\ Forall (fun '(u, d) =>
                 spatial u = spatial d
                 /\ called_stack u ∈ Some <$> up_stack
                 /\ called_stack d ∈ Some <$> down_stack)
              (concat_nodes (outputs m))
    /\ map (fun '(u, d) => spatial u) (concat_nodes (outputs m))
         = [(6, 8); (12, 16); (24, 32); (48, 64); (96, 128); (192, 256)].
Proof.
  do 3 eexists.
  split; [run_model|]. split; [run_model|]. split; [run_model|].
  split; [reflexivity|]. split; [reflexivity|].
  split; [|reflexivity].
  repeat apply Forall_cons_2; try apply Forall_nil_2;
    (split; [reflexivity | split; cbn; rewrite !elem_of_cons; tauto]).
Qed.

(** The shape check is a real one: on a 100x100 input the third
    concatenation would join 8x8 with 7x7, and the construction fails. *)
Example g1_rejects_100x100 :
  g1_unet_on module_globals (Input [100; 100; 3])
    = Raise (ValueError ConcatMismatch).
Proof. run_model. Qed.

(** C8.  For the input [(384, 512, 3)] the seven downsampling stacks
    bring height and width to 3x4, the six upsampling stacks and the
    final transposed convolution bring them back: the output shape is
    [(384, 512, 3)], not the [(256, 256, 3)] of the comment on line 84. *)
Theorem g1_shape_preserving :
  exists m,
    create_g1_firegan_unet module_globals = Ok m
    /\ tshape (inputs m) = [384; 512; 3]
    /\ map tshape (spine (outputs m))
         = [ [384; 512; 3];
             [192; 256; 64]; [96; 128; 128]; [48; 64; 256]; [24; 32; 512];
             [12; 16; 512]; [6; 8; 512]; [3; 4; 512];
             [6; 8; 512]; [6; 8; 1024]; [12; 16; 512]; [12; 16; 1024];
             [24; 32; 512]; [24; 32; 1024]; [48; 64; 256]; [48; 64; 512];
             [96; 128; 128]; [96; 128; 256]; [192; 256; 64]; [192; 256; 128];
             [384; 512; 3] ]
    /\ tshape (outputs m) = [384; 512; 3]
    /\ tshape (outputs m) <> [256; 256; 3].
Proof.
  eexists. split; [run_model|].
  split; [reflexivity|]. split; [reflexivity|].
  split; [reflexivity | discriminate].
Qed.

(** C10.  For every [i] in 0..5, the output of [up_stack[i]] is
    concatenated with the output of [down_stack[5 - i]]; there are
    exactly six concatenations, and the seventh downsampling output is
    fed to the first upsampling stack and concatenated nowhere. *)
Theorem g1_skip_wiring (i : nat) : (i < 6)%nat -> skips_wired_at i.
Proof.
  intros Hi. unfold skips_wired_at, g1_down_outputs.
  do 4 eexists.
  split; [run_model|]. split; [run_model|]. split; [run_model|].
  split; [run_model|]. split; [reflexivity|]. split; [reflexivity|].
  split.
  - do 6 (destruct i as [|i];
          [do 4 eexists; repeat split; reflexivity|]).
    lia.
  - eexists. split; [reflexivity|]. split.
    + cbn. rewrite !elem_of_cons, elem_of_nil.
      intros H. repeat (destruct H as [H|H]; [discriminate H|]). exact H.
    + do 2 eexists. reflexivity.
Qed.

(** The wiring at [i = 2]: [up_stack[2]] meets [down_stack[3]]. *)
Lemma g1_skip_wiring_witness : (2 < 6)%nat /\ skips_wired_at 2.
Proof.
  split; [lia|]. apply (g1_skip_wiring 2). lia.
Defined.

(** ** Further properties

    The properties below range over tensors Keras can hold and build on
    within the ranges the module itself uses: sizes from 0 up to
    [max_int32], up to 1024 input channels, up to 512 filters, kernels
    up to 4 wide. *)

(** *** The helper stacks, called on a tensor *)

Lemma downsample_no_input (G : gset string) (filters size : Z) (bn : bool)
    (m : sequential) :
  downsample G filters size bn = Ok m -> seq_input m = None.
Proof. intros H. apply downsample_inv in H as (-> & _). reflexivity. Qed.

Lemma upsample_no_input (G : gset string) (filters size : Z) (dropout : bool)
    (m : sequential) :
  upsample G filters size dropout = Ok m -> seq_input m = None.
Proof. intros H. apply upsample_inv in H as (-> & _). reflexivity. Qed.

(** Calling a stack that declares no input on a tensor its layers
    accept. *)
Lemma call_stack_shape (d : sequential) (x : tensor) (s : list Z) :
  seq_input d = None ->
  layers_output_shape (seq_layers d) (tshape x) = Ok s ->
  call (CallSequential d) x = Ok (Apply (CallSequential d) x s).
Proof.
  intros Hin Hs. unfold call. rewrite Hin, Hs. reflexivity.
Qed.

Lemma call_downsample (G : gset string) (filters size : Z) (bn : bool)
    (m : sequential) (x : tensor) (h w c : Z) :
  downsample G filters size bn = Ok m ->
  tshape x = [h; w; c] ->
  0 <= h <= max_int64 -> 0 <= w <= max_int64 -> 0 < c ->
  call (CallSequential m) x
    = Ok (Apply (CallSequential m) x [(h + 1) / 2; (w + 1) / 2; filters]).
Proof.
  intros Hm Hx Hh Hw Hc. apply call_stack_shape.
  - exact (downsample_no_input _ _ _ _ _ Hm).
  - rewrite Hx. exact (downsample_halves _ _ _ _ _ _ _ c Hm Hh Hw Hc).
Qed.

Lemma call_upsample (G : gset string) (filters size : Z) (dropout : bool)
    (m : sequential) (x : tensor) (h w c : Z) :
  upsample G filters size dropout = Ok m ->
  tshape x = [h; w; c] ->
  0 <= h -> 2 * h <= max_int64 -> 0 <= w -> 2 * w <= max_int64 -> 0 < c ->
  call (CallSequential m) x
    = Ok (Apply (CallSequential m) x [2 * h; 2 * w; filters]).
Proof.
  intros Hm Hx Hh Bh Hw Bw Hc. apply call_stack_shape.
  - exact (upsample_no_input _ _ _ _ _ Hm).
  - rewrite Hx. exact (upsample_doubles _ _ _ _ _ _ _ c Hm Hh Bh Hw Bw Hc).
Qed.

Lemma twice_half_up (n : Z) : 2 * ((n + 1) / 2) = n + n mod 2.
Proof. Z.div_mod_to_equations. lia. Qed.

(** X1.  A stack [downsample] returns (so [filters] and [size] are
    positive), with at most 512 filters and a kernel at most 4 wide,
    accepts every tensor of height and width from 0 to [max_int32] with
    1 to 1024 channels: the call yields a tensor of half the height and
    width, rounded up, with [filters] channels.  The kernel size and the
    batch-normalization flag play no part in the result. *)
Theorem downsample_call_halves (G : gset string) (filters size : Z)
    (apply_batchnorm : bool) (m : sequential) (x : tensor) (h w c : Z) :
  downsample G filters size apply_batchnorm = Ok m ->
  filters <= 512 -> size <= 4 ->
  tshape x = [h; w; c] ->
  0 <= h <= max_int32 -> 0 <= w <= max_int32 -> 0 < c <= 1024 ->
  exists y,
    call (CallSequential m) x = Ok y
    /\ output_of m x y
    /\ tshape y = [(h + 1) / 2; (w + 1) / 2; filters]
    /\ 0 <= height (tshape y) <= h /\ 0 <= width (tshape y) <= w.
Proof.
  intros Hm _ _ Hx Hh Hw Hc. eexists.
  split; [apply (call_downsample _ _ _ _ _ _ _ _ _ Hm Hx); sizes|].
  split; [eexists; reflexivity|]. split; [reflexivity|].
  unfold height, width. cbn [tshape nth].
  split; Z.div_mod_to_equations; lia.
Qed.

(** A 5x7 image with 3 channels through [downsample(64, 4, True)]. *)
Lemma downsample_call_halves_witness :
  exists m y,
    downsample module_globals 64 4 true = Ok m
    /\ call (CallSequential m) (Input [5; 7; 3]) = Ok y
    /\ tshape y = [3; 4; 64].
Proof.
  destruct (downsample module_globals 64 4 true) as [m|e] eqn:Hm;
    [|vm_compute in Hm; discriminate].
  destruct (downsample_call_halves module_globals 64 4 true m
              (Input [5; 7; 3]) 5 7 3 Hm) as (y & Hy & _ & Hs & _);
    [lia | lia | reflexivity | sizes | sizes | lia |].
  exists m, y. split; [reflexivity|]. split; [exact Hy | exact Hs].
Defined.

(** X2.  A stack [upsample] returns, with at most 512 filters and a
    kernel at most 4 wide, accepts every tensor of height [h] and width
    [w] from 0 on whose doubles stay within [max_int32], with 1 to 1024
    channels: the call yields a tensor of twice the height and width
    with [filters] channels, with or without dropout. *)
Theorem upsample_call_doubles (G : gset string) (filters size : Z)
    (apply_dropout : bool) (m : sequential) (x : tensor) (h w c : Z) :
  upsample G filters size apply_dropout = Ok m ->
  filters <= 512 -> size <= 4 ->
  tshape x = [h; w; c] ->
  0 <= h -> 2 * h <= max_int32 -> 0 <= w -> 2 * w <= max_int32 ->
  0 < c <= 1024 ->
  exists y,
    call (CallSequential m) x = Ok y
    /\ output_of m x y
    /\ tshape y = [2 * h; 2 * w; filters].
Proof.
  intros Hm _ _ Hx Hh Bh Hw Bw Hc. eexists.
  split; [apply (call_upsample _ _ _ _ _ _ _ _ _ Hm Hx); sizes|].
  split; [eexists; reflexivity | reflexivity].
Qed.

(** A 3x4 bottleneck with 512 channels through [upsample(512, 4, True)]. *)
Lemma upsample_call_doubles_witness :
  exists m y,
    upsample module_globals 512 4 true = Ok m
    /\ call (CallSequential m) (Input [3; 4; 512]) = Ok y
    /\ tshape y = [6; 8; 512].
Proof.
  destruct (upsample module_globals 512 4 true) as [m|e] eqn:Hm;
    [|vm_compute in Hm; discriminate].
  destruct (upsample_call_doubles module_globals 512 4 true m
              (Input [3; 4; 512]) 3 4 512 Hm) as (y & Hy & _ & Hs);
    [lia | lia | reflexivity | lia | sizes | lia | sizes | lia |].
  exists m, y. split; [reflexivity|]. split; [exact Hy | exact Hs].
Defined.

(** X3.  [upsample] undoes [downsample] on even sizes only: within the
    ranges above (sizes below [max_int32]), a downsampling call followed
    by an upsampling call gives height [h + h mod 2] and width
    [w + w mod 2], so an odd height or width comes back one larger. *)
Theorem downsample_then_upsample (G : gset string)
    (filters size filters' size' : Z) (apply_batchnorm apply_dropout : bool)
    (down up : sequential) (x : tensor) (h w c : Z) :
  downsample G filters size apply_batchnorm = Ok down ->
  upsample G filters' size' apply_dropout = Ok up ->
  filters <= 512 -> size <= 4 -> filters' <= 512 -> size' <= 4 ->
  tshape x = [h; w; c] ->
  0 <= h < max_int32 -> 0 <= w < max_int32 -> 0 < c <= 1024 ->
  exists y z,
    call (CallSequential down) x = Ok y
    /\ call (CallSequential up) y = Ok z
    /\ tshape z = [h + h mod 2; w + w mod 2; filters'].
Proof.
  intros Hd Hu _ _ _ _ Hx Hh Hw Hc.
  pose proof (downsample_inv _ _ _ _ _ Hd) as (_ & Hf & _).
  do 2 eexists.
  split; [apply (call_downsample _ _ _ _ _ _ _ _ _ Hd Hx); sizes|].
  split.
  - eapply call_upsample; [exact Hu | reflexivity | ..]; try lia;
      unfold max_int64, max_int32 in *; Z.div_mod_to_equations; lia.
  - cbn [tshape]. rewrite !twice_half_up. reflexivity.
Qed.

(** A 5x8 image: the odd height comes back as 6, the even width as 8. *)
Lemma downsample_then_upsample_witness :
  exists down up y z,
    downsample module_globals 64 4 false = Ok down
    /\ upsample module_globals 32 4 false = Ok up
    /\ call (CallSequential down) (Input [5; 8; 3]) = Ok y
    /\ call (CallSequential up) y = Ok z
    /\ tshape z = [6; 8; 32].
Proof.
  destruct (downsample module_globals 64 4 false) as [down|e] eqn:Hd;
    [|vm_compute in Hd; discriminate].
  destruct (upsample module_globals 32 4 false) as [up|e] eqn:Hu;
    [|vm_compute in Hu; discriminate].
  destruct (downsample_then_upsample module_globals 64 4 32 4 false false
              down up (Input [5; 8; 3]) 5 8 3 Hd Hu)
    as (y & z & Hy & Hz & Hs);
    [lia | lia | lia | lia | reflexivity | sizes | sizes | lia |].
  exists down, up, y, z.
  split; [reflexivity|]. split; [reflexivity|].
  split; [exact Hy|]. split; [exact Hz | exact Hs].
Defined.

(** *** Generator 2 on images of any size *)







(** *** Which names the generators need *)

Lemma load_global_cases (G : gset string) (name : string) :
  name ∉ builtins ->
  (name ∈ G /\ load_global G name = Ok tt)
  \/ ((name ∉ G) /\ load_global G name = Raise (NameError name)).
Proof.
  intros Hb. unfold load_global.
  destruct (bool_decide (name ∈ G ∪ builtins)) eqn:E.
  - apply bool_decide_eq_true_1 in E. left.
    apply elem_of_union in E as [E|E]; [|contradiction].
    split; [exact E | reflexivity].
  - apply bool_decide_eq_false_1 in E. right.
    split; [|reflexivity].
    intros Hin. apply E, elem_of_union_l, Hin.
Qed.

Lemma load_global_builtin (G : gset string) (name : string) :
  name ∈ builtins -> load_global G name = Ok tt.
Proof.
  intros H. unfold load_global.
  rewrite bool_decide_eq_true_2; [reflexivity | apply elem_of_union_r, H].
Qed.

(** Names that are no builtins. *)
Ltac not_builtin :=
  apply (bool_decide_eq_false_1 _); vm_compute; reflexivity.

(** Split on a lookup: bound, or the call stops with its [NameError]. *)
Ltac bound_or_raise G name Hin :=
  let E := fresh "E" in
  destruct (load_global_cases G name) as [[Hin E]|[Hin E]];
  [not_builtin | rewrite E | rewrite E].

(** X5.  In any namespace [create_g2_firegan] either returns, and then
    every name its branch mentions is bound, or raises [NameError] for
    one of those names that is not bound.  It never raises a shape
    error: the declared layers fit the declared input. *)
Theorem g2_returns_or_name_error (G : gset string) (spectral_norm : bool) :
  (Forall (fun name => name ∈ G)
          ((if spectral_norm then ["SpectralNormalization"] else [])
           ++ ["keras"; "Conv2DTranspose"; "BatchNormalization";
               "LeakyReLU"; "Conv2D"])
   /\ exists m, create_g2_firegan G spectral_norm = Ok m)
  \/ (exists name,
        name ∈ (if spectral_norm then ["SpectralNormalization"] else [])
               ++ ["keras"; "Conv2DTranspose"; "BatchNormalization";
                   "LeakyReLU"; "Conv2D"]
        /\ (name ∉ G)
        /\ create_g2_firegan G spectral_norm = Raise (NameError name)).
Proof.
  destruct spectral_norm;
    unfold create_g2_firegan, add_spectral, add_plain, add_bn_lrelu.
  - bound_or_raise G "keras" Hk;
      [|right; exists "keras"; split; [set_solver | split; [exact Hk | reflexivity]]].
    bound_or_raise G "SpectralNormalization" Hs;
      [|right; exists "SpectralNormalization";
        split; [set_solver | split; [exact Hs | reflexivity]]].
    bound_or_raise G "Conv2DTranspose" Ht;
      [|right; exists "Conv2DTranspose";
        split; [set_solver | split; [exact Ht | reflexivity]]].
    bound_or_raise G "BatchNormalization" Hb;
      [|right; exists "BatchNormalization";
        split; [set_solver | split; [exact Hb | reflexivity]]].
    bound_or_raise G "LeakyReLU" Hl;
      [|right; exists "LeakyReLU";
        split; [set_solver | split; [exact Hl | reflexivity]]].
    bound_or_raise G "Conv2D" Hc;
      [|right; exists "Conv2D";
        split; [set_solver | split; [exact Hc | reflexivity]]].
    left. split; [repeat constructor; assumption | eexists; reflexivity].
  - bound_or_raise G "keras" Hk;
      [|right; exists "keras"; split; [set_solver | split; [exact Hk | reflexivity]]].
    bound_or_raise G "Conv2DTranspose" Ht;
      [|right; exists "Conv2DTranspose";
        split; [set_solver | split; [exact Ht | reflexivity]]].
    bound_or_raise G "BatchNormalization" Hb;
      [|right; exists "BatchNormalization";
        split; [set_solver | split; [exact Hb | reflexivity]]].
    bound_or_raise G "LeakyReLU" Hl;
      [|right; exists "LeakyReLU";
        split; [set_solver | split; [exact Hl | reflexivity]]].
    bound_or_raise G "Conv2D" Hc;
      [|right; exists "Conv2D";
        split; [set_solver | split; [exact Hc | reflexivity]]].
    left. split; [repeat constructor; assumption | eexists; reflexivity].
Qed.

(** X6.  In any namespace [create_g1_firegan_unet] either returns a
    model with output shape [(384, 512, 3)], the names [tf],
    [downsample] and [upsample] being bound, or raises [NameError] for
    one of these three that is not bound.  It never raises a shape
    error. *)
Theorem g1_returns_or_name_error (G : gset string) :
  ("tf" ∈ G /\ "downsample" ∈ G /\ "upsample" ∈ G
   /\ exists m, create_g1_firegan_unet G = Ok m
                /\ tshape (outputs m) = [384; 512; 3])
  \/ (exists name,
        name ∈ ["tf"; "downsample"; "upsample"]
        /\ (name ∉ G)
        /\ create_g1_firegan_unet G = Raise (NameError name)).
Proof.
  unfold create_g1_firegan_unet, g1_unet_on, make_down_stack, make_up_stack,
    downsample, upsample, up_loop.
  rewrite (load_global_builtin G "reversed"), (load_global_builtin G "zip")
    by (apply (bool_decide_eq_true_1 _); vm_compute; reflexivity).
  bound_or_raise G "tf" Ht;
    [|right; exists "tf"; split; [set_solver | split; [exact Ht | reflexivity]]].
  bound_or_raise G "downsample" Hd;
    [|right; exists "downsample";
      split; [set_solver | split; [exact Hd | reflexivity]]].
  bound_or_raise G "upsample" Hu;
    [|right; exists "upsample";
      split; [set_solver | split; [exact Hu | vm_compute; reflexivity]]].
  left. do 3 (split; [assumption|]).
  eexists. split; [vm_compute; reflexivity | reflexivity].
Qed.

(** *** Generator 1 on any input *)

Lemma checked_dim_inv (n m : Z) :
  checked_dim n = Ok m -> m = n /\ 0 <= n <= max_int64.
Proof.
  unfold checked_dim.
  destruct (Z.ltb_spec n 0); [discriminate|].
  destruct (Z.ltb_spec max_int64 n); [discriminate|].
  intros [= <-]. lia.
Qed.

Lemma checked_shape_inv (h w c : Z) (s : list Z) :
  checked_shape h w c = Ok s ->
  s = [h; w; c] /\ 0 <= h <= max_int64 /\ 0 <= w <= max_int64.
Proof.
  unfold checked_shape. intros H.
  apply bind_Ok_inv in H as (h' & Hh & H).
  apply bind_Ok_inv in H as (w' & Hw & [= <-]).
  apply checked_dim_inv in Hh as (-> & Hh).
  apply checked_dim_inv in Hw as (-> & Hw). auto.
Qed.

Lemma checked_channels_inv (c : Z) (u : unit) :
  checked_channels c = Ok u -> 0 < c.
Proof.
  unfold checked_channels. destruct (Z.ltb_spec 0 c); [auto | discriminate].
Qed.

(** What a stack of [downsample] does to a shape of height, width and
    channels it accepts. *)
Lemma downsample_shape_inv (G : gset string) (filters size : Z) (bn : bool)
    (m : sequential) (h w c : Z) (s : list Z) :
  downsample G filters size bn = Ok m ->
  layers_output_shape (seq_layers m) [h; w; c] = Ok s ->
  s = [(h + 1) / 2; (w + 1) / 2; filters]
  /\ 0 < c
  /\ 0 <= (h + 1) / 2 <= max_int64 /\ 0 <= (w + 1) / 2 <= max_int64.
Proof.
  intros Hm Hs. apply downsample_inv in Hm as (-> & _ & _).
  assert (exists s1, conv2d_output_shape
            {| Keras.filters := filters; kernel_size := (size, size);
               strides := (2, 2); padding := same;
               kernel_initializer :=
                 random_normal_initializer (decimal 0 1) (decimal 2 100);
               use_bias := false; activation := None |} [h; w; c] = Ok s1
          /\ s = s1) as (s1 & Hc & ->).
  { unfold layers_output_shape, spec_downsample_stack in Hs.
    destruct bn; cbn [seq_layers app foldlM compute_output_shape] in Hs;
      apply bind_Ok_inv in Hs as (s1 & Hc & Hs); cbn in Hs;
      injection Hs as <-; eauto. }
  cbn [conv2d_output_shape kernel_size strides padding Keras.filters fst snd]
    in Hc.
  apply bind_Ok_inv in Hc as (u & Hch & Hc).
  apply checked_channels_inv in Hch.
  rewrite !conv_same_stride2 in Hc.
  apply checked_shape_inv in Hc as (-> & Hh & Hw). auto.
Qed.


Lemma call_sequential_shape_inv (d : sequential) (x y : tensor) :
  call (CallSequential d) x = Ok y ->
  exists s, y = Apply (CallSequential d) x s
            /\ layers_output_shape (seq_layers d) (tshape x) = Ok s.
Proof.
  unfold call. intros H.
  apply bind_Ok_inv in H as (_ & _ & H).
  apply bind_Ok_inv in H as (s & Hs & [= <-]). eauto.
Qed.

Lemma call_layer_shape_inv (l : layer) (x y : tensor) :
  call (CallLayer l) x = Ok y ->
  exists s, y = Apply (CallLayer l) x s
            /\ compute_output_shape l (tshape x) = Ok s.
Proof.
  unfold call. intros H.
  apply bind_Ok_inv in H as (s & Hs & [= <-]). eauto.
Qed.

Lemma concatenate_shape_inv (x skip y : tensor) :
  concatenate x skip = Ok y ->
  exists h w c c',
    tshape x = [h; w; c] /\ tshape skip = [h; w; c']
    /\ y = Concat x skip [h; w; c + c'].
Proof.
  unfold concatenate.
  destruct (tshape x) as [|h [|w [|c [|]]]]; try discriminate.
  destruct (tshape skip) as [|h' [|w' [|c' [|]]]]; try discriminate.
  destruct ((h =? h') && (w =? w')) eqn:E; [|discriminate].
  apply andb_true_iff in E as [Eh Ew].
  apply Z.eqb_eq in Eh. apply Z.eqb_eq in Ew. subst h' w'.
  intros [= <-]. exists h, w, c, c'. auto.
Qed.

Lemma make_down_stack_inv (G : gset string) (down_stack : list sequential) :
  make_down_stack G = Ok down_stack ->
  exists d0 d1 d2 d3 d4 d5 d6,
    down_stack = [d0; d1; d2; d3; d4; d5; d6]
    /\ downsample G 64 4 false = Ok d0
    /\ downsample G 128 4 true = Ok d1
    /\ downsample G 256 4 true = Ok d2
    /\ downsample G 512 4 true = Ok d3
    /\ downsample G 512 4 true = Ok d4
    /\ downsample G 512 4 true = Ok d5
    /\ downsample G 512 4 true = Ok d6.
Proof.
  unfold make_down_stack. intros H.
  apply bind_Ok_inv in H as (_ & _ & H). apply bind_Ok_inv in H as (d0 & H0 & H).
  apply bind_Ok_inv in H as (_ & _ & H). apply bind_Ok_inv in H as (d1 & H1 & H).
  apply bind_Ok_inv in H as (_ & _ & H). apply bind_Ok_inv in H as (d2 & H2 & H).
  apply bind_Ok_inv in H as (_ & _ & H). apply bind_Ok_inv in H as (d3 & H3 & H).
  apply bind_Ok_inv in H as (_ & _ & H). apply bind_Ok_inv in H as (d4 & H4 & H).
  apply bind_Ok_inv in H as (_ & _ & H). apply bind_Ok_inv in H as (d5 & H5 & H).
  apply bind_Ok_inv in H as (_ & _ & H). apply bind_Ok_inv in H as (d6 & H6 & H).
  injection H as <-. exists d0, d1, d2, d3, d4, d5, d6. auto 10.
Qed.

Lemma make_up_stack_inv (G : gset string) (up_stack : list sequential) :
  make_up_stack G = Ok up_stack ->
  exists u0 u1 u2 u3 u4 u5,
    up_stack = [u0; u1; u2; u3; u4; u5]
    /\ upsample G 512 4 true = Ok u0
    /\ upsample G 512 4 true = Ok u1
    /\ upsample G 512 4 true = Ok u2
    /\ upsample G 256 4 false = Ok u3
    /\ upsample G 128 4 false = Ok u4
    /\ upsample G 64 4 false = Ok u5.
Proof.
  unfold make_up_stack. intros H.
  apply bind_Ok_inv in H as (_ & _ & H). apply bind_Ok_inv in H as (u0 & H0 & H).
  apply bind_Ok_inv in H as (_ & _ & H). apply bind_Ok_inv in H as (u1 & H1 & H).
  apply bind_Ok_inv in H as (_ & _ & H). apply bind_Ok_inv in H as (u2 & H2 & H).
  apply bind_Ok_inv in H as (_ & _ & H). apply bind_Ok_inv in H as (u3 & H3 & H).
  apply bind_Ok_inv in H as (_ & _ & H). apply bind_Ok_inv in H as (u4 & H4 & H).
  apply bind_Ok_inv in H as (_ & _ & H). apply bind_Ok_inv in H as (u5 & H5 & H).
  injection H as <-. exists u0, u1, u2, u3, u4, u5. auto 10.
Qed.

(** One round of the down loop, read backwards. *)
Ltac down_round H :=
  let Hs := fresh "Hstep" in
  let Hc := fresh "Hcall" in
  apply bind_Ok_inv in H as ([? ?] & Hs & H);
  apply bind_Ok_inv in Hs as (? & Hc & Hs);
  injection Hs as <- <-;
  apply call_sequential_shape_inv in Hc as (? & -> & Hc).

(** One round of the up loop, read backwards. *)
Ltac up_round H :=
  let Hs := fresh "Hstep" in
  let Hc := fresh "Hcall" in
  let Hk := fresh "Hcat" in
  apply bind_Ok_inv in H as (? & Hs & H);
  apply bind_Ok_inv in Hs as (? & Hc & Hs);
  apply bind_Ok_inv in Hs as (_ & _ & Hk);
  apply call_sequential_shape_inv in Hc as (? & -> & Hc);
  apply concatenate_shape_inv in Hk as (? & ? & ? & ? & ? & ? & ->).

(** X7.  The wiring of Generator 1 does not depend on the namespace or
    on the input shape: whenever the graph gets built, it has six
    [Concatenate] nodes, their skip operands are the first six outputs
    of the down loop in reverse order, their first operands are the
    outputs of the six upsampling stacks in order, each node joins
    tensors of equal height and width, and the last down output is the
    bottleneck the up loop starts from. *)
Theorem g1_wiring_any_input (G : gset string) (shape : list Z) (m : model) :
  g1_unet_on G (Input shape) = Ok m ->
  exists down_stack up_stack bottleneck downs,
    make_down_stack G = Ok down_stack
    /\ make_up_stack G = Ok up_stack
    /\ down_loop down_stack (Input shape) [] = Ok (bottleneck, downs)
    /\ length downs = 7%nat
    /\ last downs = Some bottleneck
    /\ map snd (concat_nodes (outputs m)) = rev (take 6 downs)
    /\ map (fun n => called_stack (fst n)) (concat_nodes (outputs m))
         = map Some up_stack
    /\ Forall (fun '(u, d) => spatial u = spatial d)
              (concat_nodes (outputs m)).
Proof.
  intros H.
  apply g1_unet_on_inv in H
    as (ds & us & x & skips & x2 & x3 & Hds & Hus & Hdown & Hup & Hlast & ->).
  exists ds, us, x, skips.
  split; [exact Hds|]. split; [exact Hus|]. split; [exact Hdown|].
  apply make_down_stack_inv in Hds as (d0 & d1 & d2 & d3 & d4 & d5 & d6 & -> & _).
  apply make_up_stack_inv in Hus as (u0 & u1 & u2 & u3 & u4 & u5 & -> & _).
  unfold down_loop in Hdown. cbn [foldlM] in Hdown.
  do 7 down_round Hdown. injection Hdown as <- <-.
  cbn [app removelast rev zip_with] in Hup.
  unfold up_loop in Hup. cbn [foldlM] in Hup.
  do 6 up_round Hup. injection Hup as <-.
  apply call_layer_shape_inv in Hlast as (? & -> & Hlast).
  cbn [tshape] in *. subst.
  split; [reflexivity|]. split; [reflexivity|].
  split; [reflexivity|]. split; [reflexivity|].
  cbn [outputs concat_nodes app].
  repeat apply Forall_cons_2; try apply Forall_nil_2; reflexivity.
Qed.

(** The wiring on a 128x256 input with one channel. *)
Lemma g1_wiring_any_input_witness :
  exists m down_stack bottleneck downs,
    g1_unet_on module_globals (Input [128; 256; 1]) = Ok m
    /\ make_down_stack module_globals = Ok down_stack
    /\ down_loop down_stack (Input [128; 256; 1]) [] = Ok (bottleneck, downs)
    /\ last downs = Some bottleneck
    /\ map snd (concat_nodes (outputs m)) = rev (take 6 downs).
Proof.
  destruct (g1_unet_on module_globals (Input [128; 256; 1])) as [m|e] eqn:Hm;
    [|vm_compute in Hm; discriminate].
  destruct (g1_wiring_any_input module_globals [128; 256; 1] m Hm)
    as (ds & us & b & downs & Hds & _ & Hdown & _ & Hlast & Hskips & _).
  exists m, ds, b, downs. auto.
Defined.

(** X8.  Whenever the body of [create_g1_firegan_unet] builds a graph
    on an input of height [h], width [w] and [c] channels, the input
    has at least one channel and the output has shape
    [(h + h mod 2, w + w mod 2, 3)]: always three channels, always an
    even height and width.  So the output has the shape of the input
    exactly when [h] and [w] are even and the input has three
    channels. *)
Theorem g1_output_shape (G : gset string) (h w c : Z) (m : model) :
  0 <= h -> 0 <= w ->
  g1_unet_on G (Input [h; w; c]) = Ok m ->
  0 < c
  /\ inputs m = Input [h; w; c]
  /\ tshape (outputs m) = [h + h mod 2; w + w mod 2; 3]
  /\ (tshape (outputs m) = [h; w; c]
      <-> h mod 2 = 0 /\ w mod 2 = 0 /\ c = 3).
Proof.
  intros _ _ H.
  apply g1_unet_on_inv in H
    as (ds & us & x & skips & x2 & x3 & Hds & Hus & Hdown & Hup & Hlast & ->).
  apply make_down_stack_inv in Hds
    as (d0 & d1 & d2 & d3 & d4 & d5 & d6 & -> & Hd0 & _).
  apply make_up_stack_inv in Hus as (u0 & u1 & u2 & u3 & u4 & u5 & -> & _).
  unfold down_loop in Hdown. cbn [foldlM] in Hdown.
  do 7 down_round Hdown. injection Hdown as <- <-.
  cbn [app removelast rev zip_with] in Hup.
  unfold up_loop in Hup. cbn [foldlM] in Hup.
  do 6 up_round Hup. injection Hup as <-.
  apply call_layer_shape_inv in Hlast as (s & -> & Hlast).
  cbn [tshape] in *.
  destruct (downsample_shape_inv _ _ _ _ _ _ _ _ _ Hd0 Hcall)
    as (-> & Hc & Hh & Hw).
  simplify_eq.
  unfold last_layer, Conv2DTranspose_layer in Hlast.
  cbn [compute_output_shape conv2d_transpose_output_shape normalize_tuple
       kernel_size strides padding filters fst snd] in Hlast.
  apply bind_Ok_inv in Hlast as (u & _ & Hlast).
  rewrite !deconv_same_stride2 in Hlast.
  apply checked_shape_inv in Hlast as (-> & _ & _).
  split; [exact Hc|]. split; [reflexivity|].
  cbn [outputs tshape]. rewrite !twice_half_up.
  split; [reflexivity|].
  split.
  - intros [= E1 E2 E3]. repeat split; lia.
  - intros (E1 & E2 & <-). rewrite E1, E2, !Z.add_0_r. reflexivity.
Qed.

(** A 127x255 input with one channel gives a 128x256x3 output. *)
Lemma g1_output_shape_witness :
  exists m,
    g1_unet_on module_globals (Input [127; 255; 1]) = Ok m
    /\ tshape (outputs m) = [128; 256; 3].
Proof.
  destruct (g1_unet_on module_globals (Input [127; 255; 1])) as [m|e] eqn:Hm;
    [|vm_compute in Hm; discriminate].
  destruct (g1_output_shape module_globals 127 255 1 m) as (_ & _ & Hs & _);
    [lia | lia | exact Hm |].
  exists m. split; [reflexivity | exact Hs].
Defined.













(** *** The framework's checks at the edges

    What the calls above do on inputs outside those ranges. *)

(** A height of zero is a size like any other: the graph of Generator 1
    gets built, with output height zero. *)
Example g1_builds_on_zero_height :
  (m ← g1_unet_on module_globals (Input [0; 128; 3]); Ok (tshape (outputs m)))
  = Ok [0; 128; 3].
Proof. run_model. Qed.

(** Without input channels the first convolution refuses. *)
Example g1_refuses_zero_channels :
  g1_unet_on module_globals (Input [128; 128; 0])
  = Raise (ValueError NoInputChannels).
Proof. run_model. Qed.

(** A convolution keeps the axes before height, width and channels; a
    transposed convolution refuses them. *)
Example downsample_keeps_leading_axes :
  (d ← downsample module_globals 64 4 true;
   y ← call (CallSequential d) (Input [9; 5; 7; 3]); Ok (tshape y))
  = Ok [9; 3; 4; 64]
  /\ (u ← upsample module_globals 64 4 true;
      call (CallSequential u) (Input [9; 5; 7; 3]))
     = Raise (ValueError BadRank).
Proof. split; run_model. Qed.

(** Doubling a height of 2^62 leaves the 64-bit integers. *)
Example upsample_overflows :
  (u ← upsample module_globals 64 4 true;
   call (CallSequential u) (Input [2 ^ 62; 7; 3]))
  = Raise OverflowError.
Proof. run_model. Qed.

(** The model of Generator 2 refuses an image with 3 channels. *)
Example g2_refuses_three_channels :
  (m ← create_g2_firegan module_globals false;
   call (CallSequential m) (Input [384; 512; 3]))
  = Raise (ValueError InputShapeMismatch).
Proof. run_model. Qed.
